(** * kube-codegen: the CRD value compiler, the group emitter and the
      generator toggle, embedded from the Go sources.

    Source files embedded here:
    - the value compiler of package [crd] ([GenerateValue], [generateValue],
      [generatePtrValue], [generateType], [generatePtrLiteralValue],
      [generateLiteralValue], [generateBuiltinLiteralValue],
      [generateStructValue], [generateStructWithUnexportedField],
      [Capitalize]);
    - [pkg/generator/crd/generator.go] ([Generate], [GenerateGroup],
      [GenerateGroupInstall], [GenerateScheme], [setFileDefault]);
    - [EnabledGenerators] of package [codegen].

    Go values are modelled after [reflect.Value], the emitted code after the
    statement trees of [github.com/dave/jennifer/jen]. *)

From Stdlib Require Import ZArith Ascii String List Bool Lia Permutation.
From stdpp Require Import base option list strings gmap.

Set Warnings "-register-all,-clear-no-such-hyp".

Local Open Scope string_scope.
Local Open Scope list_scope.

(* ===================================================================== *)
(** ** Go run-time outcomes *)
(* ===================================================================== *)

(** A Go call either returns or panics (the value compiler dereferences
    pointers through [reflect] without a nil check). *)
Inductive result (A : Type) : Type :=
| Returns (a : A)
| Panics.
Arguments Returns {A} a.
Arguments Panics {A}.

Definition bind {A B : Type} (m : result A) (k : A -> result B) : result B :=
  match m with
  | Returns a => k a
  | Panics => Panics
  end.

Notation "'let*' x := m 'in' k" := (bind m (fun x => k))
  (at level 10, x name, m at level 100, k at level 200).

Definition panics {A : Type} (m : result A) : bool :=
  match m with Panics => true | Returns _ => false end.

(* ===================================================================== *)
(** ** [reflect.Kind] and [reflect.Type] *)
(* ===================================================================== *)

Module reflect.

Inductive Kind : Set :=
| Bool | Int | Int8 | Int16 | Int32 | Int64
| Uint | Uint8 | Uint16 | Uint32 | Uint64 | Uintptr
| Float32 | Float64 | Complex64 | Complex128
| Array | Chan | Func | Interface | Map | Ptr | Slice | String | Struct
| UnsafePointer.

Definition Kind_eqb (a b : Kind) : bool :=
  match a, b with
  | Bool, Bool | Int, Int | Int8, Int8 | Int16, Int16 | Int32, Int32
  | Int64, Int64 | Uint, Uint | Uint8, Uint8 | Uint16, Uint16
  | Uint32, Uint32 | Uint64, Uint64 | Uintptr, Uintptr | Float32, Float32
  | Float64, Float64 | Complex64, Complex64 | Complex128, Complex128
  | Array, Array | Chan, Chan | Func, Func | Interface, Interface
  | Map, Map | Ptr, Ptr | Slice, Slice | String, String | Struct, Struct
  | UnsafePointer, UnsafePointer => true
  | _, _ => false
  end.

(** [Kind.String()]. *)
Definition Kind_String (k : Kind) : string :=
  match k with
  | Bool => "bool" | Int => "int" | Int8 => "int8" | Int16 => "int16"
  | Int32 => "int32" | Int64 => "int64" | Uint => "uint" | Uint8 => "uint8"
  | Uint16 => "uint16" | Uint32 => "uint32" | Uint64 => "uint64"
  | Uintptr => "uintptr" | Float32 => "float32" | Float64 => "float64"
  | Complex64 => "complex64" | Complex128 => "complex128"
  | Array => "array" | Chan => "chan" | Func => "func"
  | Interface => "interface" | Map => "map" | Ptr => "ptr"
  | Slice => "slice" | String => "string" | Struct => "struct"
  | UnsafePointer => "unsafe.Pointer"
  end.

(** The kinds of types that have neither an element type nor fields. *)
Inductive IntKind : Set := KInt | KInt8 | KInt16 | KInt32 | KInt64.
Inductive UintKind : Set :=
  KUint | KUint8 | KUint16 | KUint32 | KUint64 | KUintptr.
Inductive FloatKind : Set := KFloat32 | KFloat64.
Inductive ComplexKind : Set := KComplex64 | KComplex128.

Inductive BasicKind : Set :=
| BBool
| BInt (k : IntKind)
| BUint (k : UintKind)
| BFloat (k : FloatKind)
| BComplex (k : ComplexKind)
| BString
| BUnsafePointer.

Definition IntKind_Kind (k : IntKind) : Kind :=
  match k with
  | KInt => Int | KInt8 => Int8 | KInt16 => Int16 | KInt32 => Int32
  | KInt64 => Int64
  end.

Definition UintKind_Kind (k : UintKind) : Kind :=
  match k with
  | KUint => Uint | KUint8 => Uint8 | KUint16 => Uint16 | KUint32 => Uint32
  | KUint64 => Uint64 | KUintptr => Uintptr
  end.

Definition FloatKind_Kind (k : FloatKind) : Kind :=
  match k with KFloat32 => Float32 | KFloat64 => Float64 end.

Definition ComplexKind_Kind (k : ComplexKind) : Kind :=
  match k with KComplex64 => Complex64 | KComplex128 => Complex128 end.

Definition BasicKind_Kind (b : BasicKind) : Kind :=
  match b with
  | BBool => Bool
  | BInt k => IntKind_Kind k
  | BUint k => UintKind_Kind k
  | BFloat k => FloatKind_Kind k
  | BComplex k => ComplexKind_Kind k
  | BString => String
  | BUnsafePointer => UnsafePointer
  end.

(** What the compiler reads of a [reflect.StructField] besides its type:
    [Name] and [PkgPath] (empty for an exported field). *)
Record FieldInfo : Set := mkField {
  FieldName : string;
  FieldPkgPath : string
}.

(** Whether a struct type [T] and its pointer type [*T] implement
    [json.Marshaler] and [json.Unmarshaler] ([Type.Implements]). *)
Record Methods : Set := mkMethods {
  T_Marshaler : bool;
  PtrT_Marshaler : bool;
  T_Unmarshaler : bool;
  PtrT_Unmarshaler : bool
}.

(** [reflect.Type].  [PkgPath] and [Name] are kept where the compiler reads
    them: on basic kinds, interfaces and structs. *)
Inductive Type_ : Type :=
| TBasic (k : BasicKind) (PkgPath Name : string)
| TPtr (Elem : Type_)
| TSlice (Elem : Type_)
| TArray (Len : Z) (Elem : Type_)
| TMap (Key Elem : Type_)
| TChan (Elem : Type_)
| TFunc
| TInterface (PkgPath Name : string)
| TStruct (PkgPath Name : string) (Fields : list (FieldInfo * Type_))
    (ms : Methods).

Definition Kind_of (t : Type_) : Kind :=
  match t with
  | TBasic k _ _ => BasicKind_Kind k
  | TPtr _ => Ptr
  | TSlice _ => Slice
  | TArray _ _ => Array
  | TMap _ _ => Map
  | TChan _ => Chan
  | TFunc => Func
  | TInterface _ _ => Interface
  | TStruct _ _ _ _ => Struct
  end.

Definition PkgPath (t : Type_) : string :=
  match t with
  | TBasic _ p _ | TInterface p _ | TStruct p _ _ _ => p
  | _ => ""
  end.

Definition Name (t : Type_) : string :=
  match t with
  | TBasic _ _ n | TInterface _ n | TStruct _ n _ _ => n
  | _ => ""
  end.

(* ===================================================================== *)
(** ** [reflect.Value] *)
(* ===================================================================== *)

(** A valid [reflect.Value].  Scalars carry the name of their type; a float
    carries [math.Float64bits] of [v.Float()]; a struct carries its fields
    with their values, in declaration order; a map carries its entries in
    the order [MapRange] yields them (Go leaves that order unspecified). *)
Inductive Value : Type :=
| VBool (PkgPath Name : string) (b : bool)
| VInt (k : IntKind) (PkgPath Name : string) (i : Z)
| VUint (k : UintKind) (PkgPath Name : string) (u : Z)
| VFloat (k : FloatKind) (PkgPath Name : string) (bits : Z)
| VComplex (k : ComplexKind) (PkgPath Name : string) (re_bits im_bits : Z)
| VString (PkgPath Name : string) (s : string)
| VUnsafePointer (PkgPath Name : string) (addr : Z)
| VNilPtr (Elem : Type_)
| VPtr (elem : Value)
| VNilSlice (Elem : Type_)
| VSlice (Elem : Type_) (elems : list Value)
| VArray (Elem : Type_) (elems : list Value)
| VNilMap (Key Elem : Type_)
| VMap (Key Elem : Type_) (entries : list (Value * Value))
| VChan (Elem : Type_) (isNil : bool)
| VFunc (isNil : bool)
| VInterface (PkgPath Name : string) (isNil : bool)
| VStruct (PkgPath Name : string) (ms : Methods)
    (fields : list (FieldInfo * Value)).

(** [v.Type()]. *)
Fixpoint TypeOf (v : Value) : Type_ :=
  match v with
  | VBool p n _ => TBasic BBool p n
  | VInt k p n _ => TBasic (BInt k) p n
  | VUint k p n _ => TBasic (BUint k) p n
  | VFloat k p n _ => TBasic (BFloat k) p n
  | VComplex k p n _ _ => TBasic (BComplex k) p n
  | VString p n _ => TBasic BString p n
  | VUnsafePointer p n _ => TBasic BUnsafePointer p n
  | VNilPtr e => TPtr e
  | VPtr x => TPtr (TypeOf x)
  | VNilSlice e | VSlice e _ => TSlice e
  | VArray e l => TArray (Z.of_nat (length l)) e
  | VNilMap k e | VMap k e _ => TMap k e
  | VChan e _ => TChan e
  | VFunc _ => TFunc
  | VInterface p n _ => TInterface p n
  | VStruct p n ms fields =>
      TStruct p n
        ((fix go (l : list (FieldInfo * Value)) : list (FieldInfo * Type_) :=
            match l with
            | [] => []
            | (f, x) :: l' => (f, TypeOf x) :: go l'
            end) fields) ms
  end.

(** [v.IsZero()].  A float is zero when its bits are, as in the Go
    releases up to 1.21 (later ones also count the negative zero). *)
Fixpoint IsZero (v : Value) : bool :=
  match v with
  | VBool _ _ b => negb b
  | VInt _ _ _ i => (i =? 0)%Z
  | VUint _ _ _ u => (u =? 0)%Z
  | VFloat _ _ _ bits => (bits =? 0)%Z
  | VComplex _ _ _ re im => (re =? 0)%Z && (im =? 0)%Z
  | VString _ _ s => (String.length s =? 0)%nat
  | VUnsafePointer _ _ a => (a =? 0)%Z
  | VNilPtr _ | VNilSlice _ | VNilMap _ _ => true
  | VPtr _ | VSlice _ _ | VMap _ _ _ => false
  | VChan _ isNil | VFunc isNil | VInterface _ _ isNil => isNil
  | VArray _ l =>
      (fix all (l : list Value) : bool :=
         match l with
         | [] => true
         | x :: l' => if IsZero x then all l' else false
         end) l
  | VStruct _ _ _ fields =>
      (fix all (l : list (FieldInfo * Value)) : bool :=
         match l with
         | [] => true
         | (_, x) :: l' => if IsZero x then all l' else false
         end) fields
  end.

End reflect.

(* ===================================================================== *)
(** ** [jen]: statement trees of the emitted Go code *)
(* ===================================================================== *)

Module jen.

(** The dynamic value handed to [jen.Lit]: its Go type and its content.
    [LitNil] is the nil interface. *)
Inductive Literal : Set :=
| LitBool (b : bool)
| LitInt (k : reflect.IntKind) (i : Z)
| LitUint (k : reflect.UintKind) (u : Z)
| LitFloat (k : reflect.FloatKind) (bits : Z)
| LitString (s : string)
| LitNil.

Inductive Token : Set :=
| Op (op : string)
| Id (name : string)
| Qual (path name : string)
| Lit (l : Literal)
| Keyword (kw : string)
| Line
| Comment (text : string).

(** The bracketed groups the sources build: [Parens], [Call], [Params],
    [Values], [Index], [Block], [Return], [Struct] and [Map]. *)
Inductive Bracket : Set :=
| Parens | Call | Params | Values | Index | Block | Return | Struct | Map.

(** One [jen.Code] item.  A [*jen.Statement] used as an item keeps its
    identity as [Stmt]; [Stmt None] is the nil pointer, which [jen] accepts
    and prints as nothing.  [Dict] is a [jen.Dict], a Go map from [Code] to
    [Code] whose keys are statement pointers: the entries are listed in the
    order they were assigned, and [jen] prints them sorted by the text of
    the key, skipping every entry whose key or value is null. *)
Inductive Code : Type :=
| Tok (t : Token)
| Stmt (s : option (list Code))
| Grp (b : Bracket) (items : list Code)
| Dict (entries : list (option (list Code) * option (list Code))).

(** [jen.Statement]; a [*jen.Statement] is an [option Statement]. *)
Definition Statement : Type := list Code.
Definition Entries : Type := list (option Statement * option Statement).

(** [d[k] = v] on a [jen.Dict].  Every non-nil key is a fresh pointer and
    adds an entry; the nil pointer is one key. *)
Definition Dict_set (d : Entries) (k v : option Statement) : Entries :=
  match k with
  | Some _ => d ++ [(k, v)]
  | None =>
      List.filter (fun e => match fst e with Some _ => true | None => false end) d
        ++ [(None, v)]
  end.

(** A statement that starts with a token or a bracketed group prints
    something: it is not null for [jen]. *)
Definition starts_printing (s : Statement) : Prop :=
  match s with
  | (Tok _ | Grp _ _) :: _ => True
  | _ => False
  end.

(** The entries [jen] prints: those whose key and value are not null.
    Every statement the value compiler returns starts with a token or a
    bracketed group, so that null means nil here. *)
Definition printed (d : Entries) : Entries :=
  List.filter
    (fun e => match e with (Some _, Some _) => true | _ => false end) d.

(** A composite literal ends in its braces (a [Values] group), after the
    type when one is written. *)
Definition is_composite_literal (s : Statement) : bool :=
  match List.last s (Tok Line) with
  | Grp Values _ => true
  | _ => false
  end.

(** [jen.File]: package name, header comments, registered import aliases
    and the top-level items, each in the order they were added. *)
Record File : Type := mkFile {
  PackageName : string;
  HeaderComments : list string;
  ImportAliases : list (string * string);
  Items : list Code
}.

Definition NewFile (name : string) : File := mkFile name [] [] [].

Definition HeaderComment (f : File) (c : string) : File :=
  mkFile (PackageName f) (HeaderComments f ++ [c]) (ImportAliases f) (Items f).

Definition ImportAlias (f : File) (path alias : string) : File :=
  mkFile (PackageName f) (HeaderComments f)
    (ImportAliases f ++ [(path, alias)]) (Items f).

Definition Add (f : File) (s : Statement) : File :=
  mkFile (PackageName f) (HeaderComments f) (ImportAliases f)
    (Items f ++ [Stmt (Some s)]).

End jen.

(* ===================================================================== *)
(** ** [github.com/zoumo/golib/reflection] *)
(* ===================================================================== *)

Module reflection.
Import reflect.

(** Modelled from the spec: the helper package is a dependency whose source
    is not part of the repository.  A literal (scalar) type is a boolean, an
    integer of any width, [uintptr], a float or a string: the kinds
    [generateBuiltinLiteralValue] switches on. *)
Definition IsLiteralType (t : Type_) : bool :=
  match t with
  | TBasic (BBool | BInt _ | BUint _ | BFloat _ | BString) _ _ => true
  | _ => false
  end.

(** Modelled from the spec: a custom named type is one declared in a
    package, distinct from the builtin type of its kind. *)
Definition IsCustomType (t : Type_) : bool :=
  negb (String.eqb (PkgPath t) "").

(** Modelled from the spec: a field is private when [reflect] reports a
    package path for it. *)
Definition IsUnexportedField (f : FieldInfo) : bool :=
  negb (String.eqb (FieldPkgPath f) "").

(** Modelled from the spec: an anonymous record is a struct type without a
    name. *)
Definition IsAnonymousStruct (t : Type_) : bool :=
  match t with
  | TStruct _ n _ _ => String.eqb n ""
  | _ => false
  end.

(** Modelled from the spec: a record has private state when one of its
    fields is private. *)
Definition HasUnexportedField (t : Type_) : bool :=
  match t with
  | TStruct _ _ fields _ => existsb (fun f => IsUnexportedField (fst f)) fields
  | _ => false
  end.

End reflection.

(* ===================================================================== *)
(** ** Package [crd]: the value compiler *)
(* ===================================================================== *)

Module crd.
Import reflect reflection jen.

(** Go's integer conversions keep the low bits. *)
Definition wrap_signed (w i : Z) : Z :=
  ((i + 2 ^ (w - 1)) mod 2 ^ w - 2 ^ (w - 1))%Z.
Definition wrap_unsigned (w u : Z) : Z := (u mod 2 ^ w)%Z.

(** Width of [int], [uint] and [uintptr] on the 64-bit targets. *)
Definition intSize : Z := 64.

Definition Capitalize (str : string) : string :=
  match str with
  | EmptyString => ""
  | String.String c rest =>
      let r := nat_of_ascii c in
      if (97 <=? r)%nat && (r <=? 122)%nat
      then String.String (ascii_of_nat (r - 32)) rest
      else str
  end.

Fixpoint generateType (t : Type_) : option Statement :=
  match t with
  | TPtr e => Some [Tok (Op "*"); Stmt (generateType e)]
  | TSlice e => Some [Grp Index []; Stmt (generateType e)]
  | TArray n e =>
      Some [Grp Index [Stmt (Some [Tok (Lit (LitInt KInt n))])];
            Stmt (generateType e)]
  | TMap k e => Some [Grp jen.Map [Stmt (generateType k)]; Stmt (generateType e)]
  | TStruct p n _ _ => Some [Tok (Qual p n)]
  | TChan e => Some [Tok (Keyword "chan"); Stmt (generateType e)]
  | TFunc => None
  | _ =>
      if IsCustomType t then Some [Tok (Qual (PkgPath t) (Name t))]
      else Some [Tok (Id (Kind_String (Kind_of t)))]
  end.

Definition generateBuiltinLiteralValue (v : Value) : Statement :=
  let value :=
    match v with
    | VBool _ _ b => if b then LitBool true else LitBool false
    | VInt KInt _ _ i => LitInt KInt (wrap_signed intSize i)
    | VInt KInt8 _ _ i => LitInt KInt8 (wrap_signed 8 i)
    | VInt KInt16 _ _ i => LitInt KInt16 (wrap_signed 16 i)
    | VInt KInt32 _ _ i => LitInt KInt32 (wrap_signed 32 i)
    | VInt KInt64 _ _ i => LitInt KInt64 i
    | VUint KUint _ _ u => LitUint KUint (wrap_unsigned intSize u)
    | VUint KUint8 _ _ u => LitUint KUint8 (wrap_unsigned 8 u)
    | VUint KUint16 _ _ u => LitUint KUint16 (wrap_unsigned 16 u)
    | VUint KUint32 _ _ u => LitUint KUint32 (wrap_unsigned 32 u)
    | VUint KUint64 _ _ u => LitUint KUint64 u
    | VFloat KFloat32 _ _ bits => LitFloat KFloat32 bits
    | VFloat KFloat64 _ _ bits => LitFloat KFloat64 bits
    | VString _ _ s => LitString s
    | VUint KUintptr _ _ u => LitUint KUintptr (wrap_unsigned intSize u)
    | _ => LitNil
    end in
  [Tok (Lit value)].

Definition generatePtrLiteralValue (v : Value) : option Statement :=
  let t := TypeOf v in
  if negb (IsLiteralType t) then None
  else
    let value := generateBuiltinLiteralValue v in
    let p := [Tok (Qual "github.com/zoumo/golib/pointer"
                     (Capitalize (Kind_String (Kind_of t))));
              Grp Call [Stmt (Some value)]] in
    if IsCustomType t
    then Some [Grp Parens [Stmt (Some [Tok (Op "*");
                                       Tok (Qual (PkgPath t) (Name t))])];
               Grp Parens [Stmt (Some p)]]
    else Some p.

Definition generateLiteralValue (v : Value) : option Statement :=
  let t := TypeOf v in
  if negb (IsLiteralType t) then None
  else
    let ts := generateBuiltinLiteralValue v in
    if IsCustomType t
    then Some [Tok (Qual (PkgPath t) (Name t)); Grp Parens [Stmt (Some ts)]]
    else Some ts.

(** [t.Field(i)] for every [i], in order. *)
Definition Fields (t : Type_) : list (FieldInfo * Type_) :=
  match t with
  | TStruct _ _ fields _ => fields
  | _ => []
  end.

Definition Implements_Marshaler (t : Type_) : bool :=
  match t with TStruct _ _ _ ms => T_Marshaler ms | _ => false end.
Definition PtrTo_Implements_Marshaler (t : Type_) : bool :=
  match t with TStruct _ _ _ ms => PtrT_Marshaler ms | _ => false end.
Definition Implements_Unmarshaler (t : Type_) : bool :=
  match t with TStruct _ _ _ ms => T_Unmarshaler ms | _ => false end.
Definition PtrTo_Implements_Unmarshaler (t : Type_) : bool :=
  match t with TStruct _ _ _ ms => PtrT_Unmarshaler ms | _ => false end.

Section Compiler.

(** [json.Marshal(v.Interface())]: the text, or [None] when it returns an
    error. *)
Variable json_Marshal : Value -> option string.

Definition generateStructWithUnexportedField (v : Value) (ptrResult : bool)
  : option Statement :=
  let t := TypeOf v in
  if negb (Kind_eqb (Kind_of t) reflect.Struct) then None
  else
    let structS := [Tok (Qual (PkgPath t) (Name t))] in
    if (Implements_Marshaler t || PtrTo_Implements_Marshaler t)
       && (Implements_Unmarshaler t || PtrTo_Implements_Unmarshaler t)
    then
      (* jsonBytes, _ := json.Marshal(v.Interface()): nil on error *)
      let jsonBytes := match json_Marshal v with Some b => b | None => "" end in
      Some ([Tok (Keyword "func"); Grp Params []]
            ++ (if ptrResult then [Tok (Op "*")] else [])
            ++ [Stmt (Some structS);
                Grp Block
                  [Stmt (Some [Tok (Id "jsonStr"); Tok (Op ":=");
                               Tok (Lit (LitString jsonBytes))]);
                   Stmt (Some [Tok (Keyword "var"); Tok (Id "obj");
                               Stmt (Some structS)]);
                   Stmt (Some [Tok (Qual "encoding/json" "Unmarshal");
                               Grp Call
                                 [Stmt (Some [Grp Index []; Tok (Id "byte");
                                              Grp Parens
                                                [Stmt (Some [Tok (Id "jsonStr")])]]);
                                  Stmt (Some [Tok (Op "&"); Tok (Id "obj")])]]);
                   (if ptrResult
                    then Stmt (Some [Grp Return
                                       [Stmt (Some [Tok (Op "&"); Tok (Id "obj")])]])
                    else Stmt (Some [Grp Return
                                       [Stmt (Some [Tok (Id "obj")])]]))];
                Grp Call []])
    else None.

Section Open.

(** The recursive call of [generateValue], tied below. *)
Variable generateValue : Value -> bool -> result (option Statement).

(** The loop over the fields inside [generateStructValue]. *)
Fixpoint structDict (fields : list (FieldInfo * Value)) (d : Entries)
  : result Entries :=
  match fields with
  | [] => Returns d
  | (field, fv) :: rest =>
      if IsUnexportedField field || IsAnonymousStruct (TypeOf fv)
      then structDict rest d
      else if negb (IsZero fv)
      then
        let* r := generateValue fv false in
        structDict rest (Dict_set d (Some [Tok (Id (FieldName field))]) r)
      else structDict rest d
  end.

(** The loop over the elements of a slice or an array. *)
Fixpoint valuesItems (elems : list Value) : result (list Code) :=
  match elems with
  | [] => Returns []
  | x :: rest =>
      let* r := generateValue x true in
      let* items := valuesItems rest in
      Returns (Stmt (Some [Tok Line; Stmt r]) :: items)
  end.

(** The loop over the entries of a map. *)
Fixpoint mapDict (entries : list (Value * Value)) (d : Entries)
  : result Entries :=
  match entries with
  | [] => Returns d
  | (kv, vv) :: rest =>
      let* k := generateValue kv false in
      let* x := generateValue vv true in
      mapDict rest (Dict_set d k x)
  end.

Definition generateStructValue_ (v : Value) (ptrResult omitType : bool)
  : result (option Statement) :=
  match v with
  | VStruct _ _ _ fields =>
      let t := TypeOf v in
      match (if HasUnexportedField t
             then generateStructWithUnexportedField v ptrResult
             else None) with
      | Some j => Returns (Some j)
      | None =>
          let ts :=
            if IsAnonymousStruct t
            then [Grp jen.Struct
                    (List.map
                       (fun field =>
                          Stmt (Some [Tok (Id (FieldName (fst field)));
                                      Stmt (generateType (snd field))]))
                       (Fields t))]
            else [Tok (Qual (PkgPath t) (Name t))] in
          let ts := if ptrResult then [Tok (Op "&"); Stmt (Some ts)] else ts in
          let ts := if omitType then [] else ts in
          let* d := structDict fields [] in
          Returns (Some (ts ++ [Grp Values [Dict d]]))
      end
  | _ => Returns None
  end.

Definition generatePtrValue_ (v : Value) (omitType : bool)
  : result (option Statement) :=
  match v with
  | VNilPtr _ =>
      (* every branch calls Type() on the invalid v.Elem() *)
      Panics
  | VPtr e =>
      let te := TypeOf e in
      if IsLiteralType te then Returns (generatePtrLiteralValue e)
      else if Kind_eqb (Kind_of te) reflect.Struct
      then generateStructValue_ e true omitType
      else
        let* _ := (if omitType then generateValue e true else Returns None) in
        let* r := generateValue e false in
        Returns (Some [Tok (Op "&"); Stmt r])
  | _ => Returns None
  end.

End Open.

Fixpoint generateValue (v : Value) (omitType : bool) {struct v}
  : result (option Statement) :=
  let t := TypeOf v in
  if IsLiteralType t then Returns (generateLiteralValue v)
  else
    let ts := if omitType then Some [] else generateType t in
    match v with
    | VNilPtr _ | VPtr _ => generatePtrValue_ generateValue v omitType
    | VNilSlice _ =>
        match ts with
        | Some ts => Returns (Some (ts ++ [Grp Values []]))
        | None => Panics
        end
    | VSlice _ elems | VArray _ elems =>
        let* items := valuesItems generateValue elems in
        match ts with
        | Some ts =>
            Returns (Some (ts ++ [Grp Values
                                    (items ++
                                     (if (0 <? length elems)%nat
                                      then [Stmt (Some [Tok Line])]
                                      else []))]))
        | None => Panics
        end
    | VNilMap _ _ =>
        match ts with
        | Some ts => Returns (Some (ts ++ [Grp Values [Dict []]]))
        | None => Panics
        end
    | VMap _ _ entries =>
        let* d := mapDict generateValue entries [] in
        match ts with
        | Some ts => Returns (Some (ts ++ [Grp Values [Dict d]]))
        | None => Panics
        end
    | VStruct _ _ _ _ => generateStructValue_ generateValue v false omitType
    | _ => Returns None
    end.

Definition generatePtrValue : Value -> bool -> result (option Statement) :=
  generatePtrValue_ generateValue.

Definition generateStructValue
  : Value -> bool -> bool -> result (option Statement) :=
  generateStructValue_ generateValue.

(** [GenerateValue(i)]: [i] is the non-nil interface holding [v]. *)
Definition GenerateValue (v : Value) : result (option Statement) :=
  generateValue v false.

End Compiler.

(* --------------------------------------------------------------------- *)
(** *** Go library functions used by [generator.go] *)
(* --------------------------------------------------------------------- *)

Definition newline : string := String.String (ascii_of_nat 10) EmptyString.

(** [strings.HasSuffix]. *)
Definition HasSuffix (s suffix : string) : bool :=
  let n := String.length s in
  let m := String.length suffix in
  (m <=? n)%nat && String.eqb (substring (n - m) m s) suffix.

(** [strings.ReplaceAll] for a non-empty [old] (the only use made of it):
    non-overlapping occurrences are replaced from the left. *)
Fixpoint ReplaceAll_from (old new : string) (skip : nat) (s : string)
  : string :=
  match s with
  | EmptyString => EmptyString
  | String.String c s' =>
      match skip with
      | S k => ReplaceAll_from old new k s'
      | O =>
          if String.prefix old s
          then new ++ ReplaceAll_from old new (String.length old - 1) s'
          else String.String c (ReplaceAll_from old new 0 s')
      end
  end.

Definition ReplaceAll (s old new : string) : string :=
  if String.eqb old "" then s else ReplaceAll_from old new 0 s.

(** [strings.Split(s, ".")[0]]. *)
Fixpoint Split_dot_first (s : string) : string :=
  match s with
  | EmptyString => EmptyString
  | String.String c s' =>
      if Ascii.eqb c "."%char then EmptyString
      else String.String c (Split_dot_first s')
  end.

(** [sort.Strings]. *)
Fixpoint insert_sorted (x : string) (l : list string) : list string :=
  match l with
  | [] => [x]
  | y :: l' => if String.leb x y then x :: l else y :: insert_sorted x l'
  end.

Definition sort_Strings (l : list string) : list string :=
  fold_right insert_sorted [] l.

(* --------------------------------------------------------------------- *)
(** *** The parsed definitions *)
(* --------------------------------------------------------------------- *)

(** [schema.GroupKind]. *)
Record GroupKind : Set := mkGroupKind { Group : string; Kind : string }.

(** [schema.GroupVersion]. *)
Record GroupVersion : Set := mkGroupVersion {
  gvGroup : string;
  gvVersion : string
}.

(** A [*loader.Package], identified by its [PkgPath]. *)
Definition Package : Set := string.

Definition apiextensionsv1 : string :=
  "k8s.io/apiextensions-apiserver/pkg/apis/apiextensions/v1".
Definition metav1 : string := "k8s.io/apimachinery/pkg/apis/meta/v1".

(** [apiextensionsv1.CustomResourceDefinition], as far as the generator
    reads or writes it: [Spec.Group] (the first field of the spec) and the
    promoted [ObjectMeta.Annotations].  The other fields are kept as the
    [reflect] values the value compiler walks. *)
Record CustomResourceDefinition : Type := mkCRD {
  TypeMeta : Value;
  ObjectMeta_before : list (FieldInfo * Value);
  Annotations : option (list (string * string));
  ObjectMeta_after : list (FieldInfo * Value);
  Spec_Group : string;
  Spec_rest : list (FieldInfo * Value);
  Status : Value
}.

Definition noMethods : Methods := mkMethods false false false false.
Definition string_type : Type_ := TBasic BString "" "string".
Definition string_Value (s : string) : Value := VString "" "string" s.

(** A [map[string]string] as a [reflect.Value]. *)
Definition map_string_string_Value (m : option (list (string * string)))
  : Value :=
  match m with
  | None => VNilMap string_type string_type
  | Some l =>
      VMap string_type string_type
        (List.map (fun kv => (string_Value (fst kv), string_Value (snd kv))) l)
  end.

(** [reflect.ValueOf(crd)]. *)
Definition ValueOf (crd : CustomResourceDefinition) : Value :=
  VStruct apiextensionsv1 "CustomResourceDefinition" noMethods
    [(mkField "TypeMeta" "", TypeMeta crd);
     (mkField "ObjectMeta" "",
       VStruct metav1 "ObjectMeta" noMethods
         (ObjectMeta_before crd
          ++ [(mkField "Annotations" "",
                map_string_string_Value (Annotations crd))]
          ++ ObjectMeta_after crd));
     (mkField "Spec" "",
       VStruct apiextensionsv1 "CustomResourceDefinitionSpec" noMethods
         ((mkField "Group" "", string_Value (Spec_Group crd))
          :: Spec_rest crd));
     (mkField "Status" "", Status crd)].

(** [crd.Parser], as far as the generator reads it.  Both Go maps are
    listed in the order a [range] statement yields their entries; Go leaves
    that order unspecified, so any permutation stands for the same map. *)
Record Parser : Type := mkParser {
  CustomResourceDefinitions : list (GroupKind * CustomResourceDefinition);
  GroupVersions : list (Package * GroupVersion)
}.

Definition KubeAPIApprovedAnnotation : string := "api-approved.kubernetes.io".

(** The body of the loop that protects the community owned API groups. *)
Definition protect (crd : CustomResourceDefinition) : CustomResourceDefinition :=
  let group := Spec_Group crd in
  if HasSuffix group ".k8s.io" || HasSuffix group ".kubernetes.io"
  then mkCRD (TypeMeta crd) (ObjectMeta_before crd)
         (Some [(KubeAPIApprovedAnnotation,
                 "https://github.com/kubernetes/enhancements/pull/1111")])
         (ObjectMeta_after crd) (Spec_Group crd) (Spec_rest crd) (Status crd)
  else crd.

(* --------------------------------------------------------------------- *)
(** *** [Generator] and [codeWriter] *)
(* --------------------------------------------------------------------- *)

Record Generator : Set := mkGenerator {
  AllowDangerousTypes : option bool;
  MaxDescLen : option Z;
  HeaderFile : string;
  Year : string;
  GenInstall : bool;
  GenCRD : bool
}.

(** A non-nil Go [error]. *)
Inductive error : Set := Error (msg : string).

(** What happens to the output files. *)
Inductive Event : Type :=
| Opened (filename : string)
| Written (filename : string) (f : File)
| Closed (filename : string).

(** A call that touches output files: the events it caused, then how it
    ended. *)
Definition IO (A : Type) : Type := (list Event * result A)%type.

(** Everything [Generate] calls outside this package: [json.Marshal] (the
    text, or [None] on error); [ReadFile] and [Open] of the
    [genall.GenerationContext]; [File.Render] of [jen] (the error of
    formatting the file, if any: nothing is written when it fails);
    [path.Base], [path.Dir], [path.Join] and [loader.NonVendorPath]; and the
    parsing collaborator: the parser once the roots are loaded (given the
    defaulted [AllowDangerousTypes]), [crd.FindMetav1(ctx.Roots)],
    [crd.FindKubeKinds] (its result in [range] order) and
    [parser.NeedCRDFor]. *)
Record World : Type := mkWorld {
  Marshal : Value -> option string;
  ReadFile : string -> string + error;
  Open : string -> option error;
  Render : File -> option error;
  Base : string -> string;
  Dir : string -> string;
  Join : list string -> string;
  NonVendorPath : string -> string;
  newParser : bool -> Parser;
  FindMetav1 : option Package;
  FindKubeKinds : Parser -> Package -> list GroupKind;
  NeedCRDFor : Parser -> GroupKind -> option Z -> Parser
}.

Section Generator.

Variable w : World.

Record codeWriter : Type := mkCodeWriter {
  headerText : string;
  parser : Parser
}.

Definition setFileDefault (cw : codeWriter) (f : File) : File :=
  let f := HeaderComment f ("// +build !ignore_autogenerated" ++ newline) in
  let f := HeaderComment f (headerText cw ++ newline) in
  let f := HeaderComment f "// Code generated by crd-gen. DO NOT EDIT." in
  let f := ImportAlias f "k8s.io/apimachinery/pkg/apis/meta/v1" "metav1" in
  let f := ImportAlias f
             "k8s.io/apiextensions-apiserver/pkg/apis/apiextensions/v1beta1"
             "apiextensionsv1beta1" in
  let f := ImportAlias f
             "k8s.io/apiextensions-apiserver/pkg/apis/apiextensions/v1"
             "apiextensionsv1" in
  ImportAlias f "k8s.io/apimachinery/pkg/util/runtime" "utilruntime".

(** Open [filename], render [f] into it, close it. *)
Definition writeFile (filename : string) (f : File) : IO (option error) :=
  match Open w filename with
  | Some err => ([], Returns (Some err))
  | None =>
      match Render w f with
      | Some err => ([Opened filename; Closed filename], Returns (Some err))
      | None =>
          ([Opened filename; Written filename f; Closed filename],
           Returns None)
      end
  end.

(** The [Install] function shared by [GenerateScheme] and
    [GenerateGroupInstall], over the sorted package paths. *)
Definition installFile (cw : codeWriter) (pkgs : list string) : File :=
  let schemefile := setFileDefault cw (NewFile "install") in
  let schemefile := Add schemefile [Tok Line] in
  let must := [Tok (Qual "k8s.io/apimachinery/pkg/util/runtime" "Must")] in
  let alias_of pkg :=
    ReplaceAll (Base w (Dir w pkg) ++ Base w pkg) "." "" in
  let body :=
    List.map
      (fun pkg =>
         Stmt (Some (must ++
                     [Grp Call
                        [Stmt (Some [Tok (Qual pkg "AddToScheme");
                                     Grp Call [Stmt (Some [Tok (Id "scheme")])]])]])))
      pkgs in
  let schemefile :=
    Add schemefile
      [Tok (Keyword "func"); Tok (Id "Install");
       Grp Params
         [Stmt (Some [Tok (Id "scheme"); Tok (Op "*");
                      Tok (Qual "k8s.io/apimachinery/pkg/runtime" "Scheme")])];
       Grp Block body] in
  fold_left (fun f pkg => ImportAlias f pkg (alias_of pkg)) pkgs schemefile.

Definition GenerateScheme (cw : codeWriter) (metav1Pkg : Package)
  : IO (option error) :=
  let pkgs :=
    List.map (fun e => NonVendorPath w (fst e))
      (List.filter (fun e => negb (String.eqb (fst e) metav1Pkg))
         (GroupVersions (parser cw))) in
  writeFile "install/zz.generated.scheme.go"
    (installFile cw (sort_Strings pkgs)).

Definition GenerateGroupInstall (cw : codeWriter) (group dirName : string)
  : IO (option error) :=
  let pkgs :=
    List.map (fun e => NonVendorPath w (fst e))
      (List.filter (fun e => String.eqb (gvGroup (snd e)) group)
         (GroupVersions (parser cw))) in
  writeFile (Join w [dirName; "install"; "zz.generated.install.go"])
    (installFile cw (sort_Strings pkgs)).

Definition crdid : Statement :=
  [Tok (Op "*"); Tok (Qual apiextensionsv1 "CustomResourceDefinition")].

Definition New_CRD (kind : string) : string :=
  "New" ++ Capitalize kind ++ "CRD".

(** The loop of [GenerateGroup] over the definitions: the file and the
    calls collected in [newCRDs]. *)
Fixpoint GenerateGroup_loop
  (crds : list (GroupKind * CustomResourceDefinition)) (group : string)
  (crdsfile : File) (newCRDs : list Code) : result (File * list Code) :=
  match crds with
  | [] => Returns (crdsfile, newCRDs)
  | (groupKind, crd) :: rest =>
      if negb (String.eqb (Group groupKind) group)
      then GenerateGroup_loop rest group crdsfile newCRDs
      else
        let* value := GenerateValue (Marshal w) (VPtr (ValueOf crd)) in
        let crdsfile := Add crdsfile [Tok (Comment "//nolint")] in
        let crdsfile :=
          Add crdsfile
            [Tok (Keyword "func"); Tok (Id (New_CRD (Kind groupKind)));
             Grp Params []; Stmt (Some crdid);
             Grp Block [Stmt (Some [Grp Return [Stmt value]])]] in
        let crdsfile := Add crdsfile [Tok Line] in
        GenerateGroup_loop rest group crdsfile
          (newCRDs ++
           [Stmt (Some [Tok (Id (New_CRD (Kind groupKind))); Grp Call []])])
  end.

(** The file [GenerateGroup] hands to [Render]. *)
Definition GenerateGroup_file (cw : codeWriter) (group goPackageName : string)
  : result File :=
  let crdsfile := setFileDefault cw (NewFile goPackageName) in
  let* r :=
    GenerateGroup_loop (CustomResourceDefinitions (parser cw)) group
      crdsfile [] in
  let crdsfile := fst r in
  let newCRDs := snd r in
  let slice :=
    [Grp Index []; Tok (Op "*");
     Tok (Qual apiextensionsv1 "CustomResourceDefinition")] in
  let crdsfile := Add crdsfile [Tok (Comment "//nolint")] in
  Returns
    (Add crdsfile
       [Tok (Keyword "func"); Tok (Id "NewCustomResourceDefinitions");
        Grp Params []; Stmt (Some slice);
        Grp Block
          [Stmt (Some [Grp Return
                         [Stmt (Some (slice ++ [Grp Values newCRDs]))]])]]).

Definition GenerateGroup (cw : codeWriter)
  (group dirName goPackageName : string) : IO (option error) :=
  match GenerateGroup_file cw group goPackageName with
  | Panics => ([], Panics)
  | Returns crdsfile =>
      writeFile (Join w [dirName; "zz.generated.crd.go"]) crdsfile
  end.

(** [goPackageName] and [dirName] of a group: taken from the first package
    of the group that [range] yields, else from the first part of the
    group name. *)
Definition packageOf (cw : codeWriter) (group : string) : string * string :=
  let '(goPackageName, dirName) :=
    match List.find (fun e => String.eqb (gvGroup (snd e)) group)
            (GroupVersions (parser cw)) with
    | Some (pkg, _) =>
        let dirName := Base w (Dir w pkg) in
        (ReplaceAll dirName "." "", dirName)
    | None => ("", "")
    end in
  if String.eqb goPackageName ""
  then (Split_dot_first group, Split_dot_first group)
  else (goPackageName, dirName).

(** One round of the loop of [Generate] over the groups; [Some r] when the
    round leaves [Generate]. *)
Definition Generate_group (g : Generator) (cw : codeWriter) (group : string)
  : list Event * option (result (option error)) :=
  let '(goPackageName, dirName) := packageOf cw group in
  let '(ev1, r1) :=
    if GenInstall g then GenerateGroupInstall cw group dirName
    else ([], Returns None) in
  match r1 with
  | Panics => (ev1, Some Panics)
  | Returns (Some err) => (ev1, Some (Returns (Some err)))
  | Returns None =>
      let '(ev2, r2) :=
        if GenCRD g then GenerateGroup cw group dirName goPackageName
        else ([], Returns None) in
      match r2 with
      | Panics => (ev1 ++ ev2, Some Panics)
      | Returns (Some err) => (ev1 ++ ev2, Some (Returns (Some err)))
      | Returns None => (ev1 ++ ev2, None)
      end
  end.

Fixpoint Generate_groups (g : Generator) (cw : codeWriter)
  (metav1Pkg : Package) (groups : list string) : IO (option error) :=
  match groups with
  | [] =>
      if GenInstall g then GenerateScheme cw metav1Pkg
      else ([], Returns None)
  | group :: rest =>
      match Generate_group g cw group with
      | (ev, Some r) => (ev, r)
      | (ev, None) =>
          let '(ev', r) := Generate_groups g cw metav1Pkg rest in
          (ev ++ ev', r)
      end
  end.

Definition Generate (g : Generator) : IO (option error) :=
  match (if negb (String.eqb (HeaderFile g) "")
         then ReadFile w (HeaderFile g) else inl "") with
  | inr err => ([], Returns (Some err))
  | inl headerBytes =>
      let headerText := ReplaceAll headerBytes " YEAR" (" " ++ Year g) in
      let parser :=
        newParser w (match AllowDangerousTypes g with
                   | Some b => b
                   | None => false
                   end) in
      match FindMetav1 w with
      | None =>
          (* no objects in the roots, since nothing imported metav1 *)
          ([], Returns None)
      | Some metav1Pkg =>
          let kubeKinds := FindKubeKinds w parser metav1Pkg in
          if (length kubeKinds =? 0)%nat
          then (* no objects in the roots *) ([], Returns None)
          else
            let parser :=
              fold_left (fun p groupKind => NeedCRDFor w p groupKind (MaxDescLen g))
                kubeKinds parser in
            let groups := List.map Group kubeKinds in
            let parser :=
              mkParser
                (List.map (fun e => (fst e, protect (snd e)))
                   (CustomResourceDefinitions parser))
                (GroupVersions parser) in
            Generate_groups g (mkCodeWriter headerText parser) metav1Pkg groups
      end
  end.

End Generator.

(* --------------------------------------------------------------------- *)
(** *** Reading the emitted code *)
(* --------------------------------------------------------------------- *)

(** The three tests of the loop of [generateStructValue]: the field is
    exported, its type is not an anonymous struct, its value is not zero. *)
Definition passes (f : FieldInfo * Value) : bool :=
  negb (IsUnexportedField (fst f))
  && negb (IsAnonymousStruct (TypeOf (snd f)))
  && negb (IsZero (snd f)).

(** [s] is a composite literal that prints the entry [k: v]. *)
Definition has_entry (s k v : Statement) : Prop :=
  exists (ts : Statement) (d : Entries),
    s = ts ++ [Grp Values [Dict d]] /\ In (Some k, Some v) (printed d).


(** The constructor function [GenerateGroup] adds for a definition. *)
Definition constructor (kind : string) (value : option Statement) : Code :=
  Stmt (Some [Tok (Keyword "func"); Tok (Id (New_CRD kind));
              Grp Params []; Stmt (Some crdid);
              Grp Block [Stmt (Some [Grp Return [Stmt value]])]]).

(* --------------------------------------------------------------------- *)
(** *** Scalars and the constants they denote *)
(* --------------------------------------------------------------------- *)

(** The width of an integer kind. *)
Definition IntKind_bits (k : IntKind) : Z :=
  match k with
  | KInt => intSize | KInt8 => 8 | KInt16 => 16 | KInt32 => 32 | KInt64 => 64
  end.

Definition UintKind_bits (k : UintKind) : Z :=
  match k with
  | KUint | KUintptr => intSize
  | KUint8 => 8 | KUint16 => 16 | KUint32 => 32 | KUint64 => 64
  end.

(** What [reflect] guarantees of an integer: [v.Int()] and [v.Uint()] lie
    in the range of the kind of [v]. *)
Definition in_range (v : Value) : bool :=
  match v with
  | VInt k _ _ i =>
      (- 2 ^ (IntKind_bits k - 1) <=? i)%Z && (i <? 2 ^ (IntKind_bits k - 1))%Z
  | VUint k _ _ u => (0 <=? u)%Z && (u <? 2 ^ UintKind_bits k)%Z
  | _ => true
  end.

(** The spec's [literalValue] of a scalar: the constant of the builtin
    type of its kind that holds its content, as [true], [int32(5)] or
    ["a"]. *)
Definition spec_literalValue (v : Value) : Literal :=
  match v with
  | VBool _ _ b => LitBool b
  | VInt k _ _ i => LitInt k i
  | VUint k _ _ u => LitUint k u
  | VFloat k _ _ bits => LitFloat k bits
  | VString _ _ s => LitString s
  | _ => LitNil
  end.

(** The spec's pointer-of helper of a scalar kind: the function of the
    package [pointer] that is named after the kind. *)
Definition spec_pointer_of (k : reflect.Kind) : string :=
  match k with
  | Bool => "Bool"
  | Int => "Int" | Int8 => "Int8" | Int16 => "Int16" | Int32 => "Int32"
  | Int64 => "Int64"
  | Uint => "Uint" | Uint8 => "Uint8" | Uint16 => "Uint16"
  | Uint32 => "Uint32" | Uint64 => "Uint64" | Uintptr => "Uintptr"
  | Float32 => "Float32" | Float64 => "Float64"
  | reflect.String => "String"
  | _ => ""
  end.


(* --------------------------------------------------------------------- *)
(** *** Where the compiler panics and what it drops *)
(* --------------------------------------------------------------------- *)

(** A nil pointer sits where the compiler dereferences it: behind a
    pointer, among the elements of a slice or an array, among the keys or
    values of a map, or in a field of a record that passes the three tests
    of the field loop, unless the record is compiled by its JSON
    fallback. *)
Fixpoint reaches_nil (v : Value) : bool :=
  match v with
  | VNilPtr _ => true
  | VPtr e => reaches_nil e
  | VSlice _ l | VArray _ l =>
      (fix any (l : list Value) : bool :=
         match l with
         | [] => false
         | x :: l' => reaches_nil x || any l'
         end) l
  | VMap _ _ l =>
      (fix any (l : list (Value * Value)) : bool :=
         match l with
         | [] => false
         | (k, x) :: l' => reaches_nil k || reaches_nil x || any l'
         end) l
  | VStruct _ _ ms fields =>
      if HasUnexportedField (TypeOf v)
         && ((T_Marshaler ms || PtrT_Marshaler ms)
             && (T_Unmarshaler ms || PtrT_Unmarshaler ms))
      then false
      else
        (fix any (l : list (FieldInfo * Value)) : bool :=
           match l with
           | [] => false
           | (f, x) :: l' => (passes (f, x) && reaches_nil x) || any l'
           end) fields
  | _ => false
  end.

(** The kinds [generateValue] has no case for, or skips. *)
Definition skipped_kinds : list reflect.Kind :=
  [Chan; Func; Interface; Complex64; Complex128; UnsafePointer].

(** What [reflect] guarantees of a scalar: it is of a scalar kind, its
    content lies in the range of the kind, and a type without a package
    path is the predeclared type of its kind, named after it. *)
Definition well_formed_scalar (v : Value) : bool :=
  let t := TypeOf v in
  IsLiteralType t
  && (if String.eqb (PkgPath t) ""
      then String.eqb (Name t) (Kind_String (Kind_of t))
      else true)
  && in_range v.

(* --------------------------------------------------------------------- *)
(** *** Reading the output trace *)
(* --------------------------------------------------------------------- *)

(** The discipline of the output files: [cur] is the file that is open, if
    any, and whether it has been rendered into.  A file is opened when none
    is open, written at most once while it is open, and closed; at the end
    no file is open. *)
Fixpoint discipline (cur : option (string * bool)) (evs : list Event) : bool :=
  match evs, cur with
  | [], None => true
  | [], Some _ => false
  | Opened f :: rest, None => discipline (Some (f, false)) rest
  | Written f _ :: rest, Some (f', false) =>
      String.eqb f f' && discipline (Some (f', true)) rest
  | Closed f :: rest, Some (f', _) => String.eqb f f' && discipline None rest
  | _, _ => false
  end.

(** The names of the files rendered into, in order. *)
Definition written (evs : list Event) : list string :=
  flat_map (fun e => match e with Written f _ => [f] | _ => [] end) evs.

(** [c] occurs in [s]. *)
Fixpoint mentions (c : ascii) (s : string) : bool :=
  match s with
  | EmptyString => false
  | String.String c' s' => Ascii.eqb c c' || mentions c s'
  end.

(** Ascending in the order of [sort.Strings]. *)
Fixpoint sorted (l : list string) : bool :=
  match l with
  | [] => true
  | x :: l' => forallb (String.leb x) l' && sorted l'
  end.

End crd.

(* ===================================================================== *)
(** ** Package [codegen]: the generator toggle *)
(* ===================================================================== *)

Module codegen.

Definition sortedValidGenerators : list string :=
  ["deepcopy"; "defaulter"; "conversion"; "register"; "install"; "crd";
   "openapi"; "protobuf"; "client"; "lister"; "informer"].

(** The three sets the loop over [generatorsOptions] fills. *)
Record Toggles : Type := mkToggles {
  disabled : gset string;
  enabled : gset string;
  target : gset string
}.

(** One option: [-name] disables, [+name] enables, a bare name is a
    target; the empty option is skipped. *)
Definition addOption (s : Toggles) (opt : string) : Toggles :=
  match opt with
  | EmptyString => s
  | String.String c rest =>
      if Ascii.eqb c "-"%char
      then mkToggles (disabled s ∪ {[rest]}) (enabled s) (target s)
      else if Ascii.eqb c "+"%char
      then mkToggles (disabled s) (enabled s ∪ {[rest]}) (target s)
      else mkToggles (disabled s) (enabled s) (target s ∪ {[opt]})
  end.

Definition EnabledGenerators
  (defaultEnabledGenerators defaultDisabledGenerators generatorsOptions
     : list string) : list string :=
  let disabled0 : gset string :=
    fold_left (fun d g => d ∪ {[g]}) defaultDisabledGenerators ∅ in
  let all : gset string :=
    fold_left (fun all g => (all ∪ {[g]}) ∪ disabled0)
      defaultEnabledGenerators ∅ in
  let s :=
    fold_left addOption generatorsOptions (mkToggles disabled0 ∅ ∅) in
  let target :=
    if bool_decide (size (target s) = 0)
    then (* all - disable + enabled *) (all ∖ disabled s) ∪ enabled s
    else target s in
  List.filter (fun g => bool_decide (g ∈ target)) sortedValidGenerators.

(** The options of each form, as the spec's formula names them. *)
Definition explicit_plus (generatorsOptions : list string) : list string :=
  flat_map (fun opt =>
              match opt with
              | String.String c rest =>
                  if Ascii.eqb c "+"%char then [rest] else []
              | EmptyString => []
              end) generatorsOptions.

Definition explicit_minus (generatorsOptions : list string) : list string :=
  flat_map (fun opt =>
              match opt with
              | String.String c rest =>
                  if Ascii.eqb c "-"%char then [rest] else []
              | EmptyString => []
              end) generatorsOptions.

Definition bare_names (generatorsOptions : list string) : list string :=
  List.filter (fun opt =>
                 match opt with
                 | String.String c _ =>
                     negb (Ascii.eqb c "-"%char) && negb (Ascii.eqb c "+"%char)
                 | EmptyString => false
                 end) generatorsOptions.

(** The spec's formula, word for word:
    [effective = (default_enabled ∪ explicit_plus) \ (default_disabled ∪
    explicit_minus)], bare names replacing the whole set when one is
    given. *)
Definition spec_effective
  (default_enabled default_disabled generatorsOptions : list string)
  : gset string :=
  match bare_names generatorsOptions with
  | [] =>
      (list_to_set default_enabled
         ∪ list_to_set (explicit_plus generatorsOptions))
        ∖ (list_to_set default_disabled
             ∪ list_to_set (explicit_minus generatorsOptions))
  | bare => list_to_set bare
  end.

(** [validGenerators], the set of the names above. *)
Definition validGenerators : gset string := list_to_set sortedValidGenerators.

(** The two loops of [NewCodeGenerator]: the names of the list that are
    valid generators, as a set. *)
Definition valid_of (generators : list string) : gset string :=
  fold_left
    (fun s g => if bool_decide (g ∈ validGenerators) then s ∪ {[g]} else s)
    generators ∅.

(** [ToStrings] of a set: its elements, each once, in the order in which
    [range] yields them (Go leaves that order unspecified). *)
Definition ToStrings (s : gset string) (l : list string) : Prop :=
  NoDup l /\ forall x, x ∈ l <-> x ∈ s.

(** [strings.Replace(s, old, new, -1)] for one character. *)
Fixpoint Replace_char (old new : ascii) (s : string) : string :=
  match s with
  | EmptyString => EmptyString
  | String.String c s' =>
      String.String (if Ascii.eqb c old then new else c)
        (Replace_char old new s')
  end.

Definition protoSafeOutermostPackage (name : string) : string :=
  let pkg := Replace_char "/" "." name in
  let pkg := Replace_char "-" "_" pkg in
  "." ++ pkg.

End codegen.

(* ===================================================================== *)
(** ** Sample inputs *)
(* ===================================================================== *)

Module Examples.
Import reflect reflection jen crd.

Definition int_type : Type_ := TBasic (BInt KInt) "" "int".

(** [type Level int32] holding 5. *)
Definition level5 : Value := VInt KInt32 "example.com/api" "Level" 5.

(** [[]string{"a"}]. *)
Definition names : Value := VSlice string_type [string_Value "a"].

(** A record with private state and both JSON methods on its pointer. *)
Definition quantity : Value :=
  VStruct "example.com/api" "Quantity" (mkMethods false true false true)
    [(mkField "s" "example.com/api", string_Value "1Gi")].

(** A record with a private field and no JSON methods. *)
Definition plain_private : Value :=
  VStruct "example.com/api" "T" noMethods
    [(mkField "secret" "example.com/api", VInt KInt "" "int" 1)].

(** A record whose only field is an open channel. *)
Definition with_chan : Value :=
  VStruct "example.com/api" "T" noMethods
    [(mkField "C" "", VChan int_type false)].

(** The widget of the spec: [Size] is 5 and [Note] is a nil [*string]. *)
Definition widget : Value :=
  VStruct "example.com/api" "Widget" noMethods
    [(mkField "Size" "", VInt KInt "" "int" 5);
     (mkField "Note" "", VNilPtr string_type)].

Definition marshal_fails : Value -> option string := fun _ => None.

Definition typeMeta0 : Value :=
  VStruct metav1 "TypeMeta" noMethods
    [(mkField "Kind" "", string_Value "");
     (mkField "APIVersion" "", string_Value "")].

Definition status0 : Value :=
  VStruct apiextensionsv1 "CustomResourceDefinitionStatus" noMethods [].

(** A definition of [group] with nothing else set but [status]. *)
Definition definition (group : string) (status : Value)
  : CustomResourceDefinition :=
  mkCRD typeMeta0 [(mkField "Name" "", string_Value "")] None [] group []
    status.

(** [path.Base], [path.Dir] and [path.Join] on clean relative paths. *)
Fixpoint split_slash (s cur : string) : list string :=
  match s with
  | EmptyString => [cur]
  | String.String c s' =>
      if Ascii.eqb c "/"%char then cur :: split_slash s' ""
      else split_slash s' (cur ++ String.String c "")
  end.
Definition base (s : string) : string := List.last (split_slash s "") "".
Definition dir (s : string) : string :=
  String.concat "/" (List.removelast (split_slash s "")).

(** A world in which every file opens and renders, [json.Marshal] fails,
    and the parser holds [crds] for the packages [gvs]. *)
Definition world (header : string + error) (metav1Pkg : option Package)
  (crds : list (GroupKind * CustomResourceDefinition))
  (gvs : list (Package * GroupVersion)) : World :=
  mkWorld marshal_fails (fun _ => header) (fun _ => None) (fun _ => None)
    base dir (String.concat "/") (fun p => p)
    (fun _ => mkParser crds gvs) metav1Pkg
    (fun p _ => List.map fst (CustomResourceDefinitions p))
    (fun p _ _ => p).

Definition alpha : GroupKind := mkGroupKind "example.com" "alpha".
Definition beta : GroupKind := mkGroupKind "example.com" "beta".

Definition alpha_beta : list (GroupKind * CustomResourceDefinition) :=
  [(alpha, definition "example.com" status0);
   (beta, definition "example.com" status0)].
Definition beta_alpha : list (GroupKind * CustomResourceDefinition) :=
  [(beta, definition "example.com" status0);
   (alpha, definition "example.com" status0)].

Definition example_gvs : list (Package * GroupVersion) :=
  [("example.com/project/apis/example/v1", mkGroupVersion "example.com" "v1")].

Definition gen_all : Generator := mkGenerator None None "" "" true true.
Definition gen_crd : Generator := mkGenerator None None "" "" false true.



End Examples.

Import reflect reflection jen crd.

(* ===================================================================== *)
(** ** The value compiler: unfolding and panic behaviour *)
(* ===================================================================== *)

Section CompilerFacts.

Variable json_Marshal : Value -> option string.


Lemma generateValue_ptr (e : Value) (omitType : bool) :
  generateValue json_Marshal (VPtr e) omitType = generatePtrValue json_Marshal (VPtr e) omitType.
Proof. reflexivity. Qed.

Lemma generateValue_struct p n ms fields (omitType : bool) :
  generateValue json_Marshal (VStruct p n ms fields) omitType
  = generateStructValue json_Marshal (VStruct p n ms fields) false omitType.
Proof. reflexivity. Qed.

Lemma Kind_eqb_eq (a b : reflect.Kind) : Kind_eqb a b = true <-> a = b.
Proof. split; [destruct a, b; simpl; congruence | intros ->; destruct b; reflexivity]. Qed.

(** Whether a record compiles without a panic does not depend on the
    position flags. *)
Lemma generateStructValue_panics (v : Value) (p p' o o' : bool) :
  panics (generateStructValue json_Marshal v p o) = panics (generateStructValue json_Marshal v p' o').
Proof.
  unfold crd.generateStructValue, generateStructValue_.
  destruct v; try reflexivity.
  destruct (HasUnexportedField _); [|destruct (structDict _ _ _); reflexivity].
  unfold generateStructWithUnexportedField.
  destruct (negb _); [destruct (structDict _ _ _); reflexivity|].
  destruct (_ && _); [reflexivity | destruct (structDict _ _ _); reflexivity].
Qed.

(** Whether a value compiles without a panic does not depend on
    [omitType]. *)
Lemma generateValue_panics (v : Value) :
  panics (generateValue json_Marshal v true) = panics (generateValue json_Marshal v false).
Proof.
  induction v; try reflexivity.
  - (* VPtr *)
    rewrite !generateValue_ptr.
    unfold crd.generatePtrValue, generatePtrValue_.
    destruct (IsLiteralType _); [reflexivity|].
    destruct (Kind_eqb _ _).
    + apply generateStructValue_panics.
    + fold (crd.generateValue json_Marshal).
      destruct (generateValue json_Marshal v true), (generateValue json_Marshal v false);
        simpl in *; congruence.
  - (* VSlice *)
    simpl. match goal with |- context [bind ?m _] => destruct m end; reflexivity.
  - (* VArray *)
    simpl. match goal with |- context [bind ?m _] => destruct m end; reflexivity.
  - (* VMap *)
    simpl. match goal with |- context [bind ?m _] => destruct m end; reflexivity.
  - (* VStruct *)
    rewrite !generateValue_struct. apply generateStructValue_panics.
Qed.


Lemma generateType_starts_printing (t : Type_) (s : Statement) :
  generateType t = Some s -> starts_printing s.
Proof.
  destruct t; simpl; try destruct (IsCustomType _);
    intros H; try discriminate; injection H as <-; exact I.
Qed.

(** What the compiler returns is never a null statement. *)
Lemma generateValue_starts_printing (v : Value) (omitType : bool)
  (s : Statement) :
  generateValue json_Marshal v omitType = Returns (Some s) ->
  starts_printing s.
Proof.
  assert (Hstruct : forall x pr o,
             generateStructValue json_Marshal x pr o = Returns (Some s) ->
             starts_printing s).
  { intros x pr o. unfold generateStructValue, generateStructValue_.
    destruct x; try discriminate.
    match goal with
    | |- context [match ?fb with Some _ => _ | None => _ end] =>
        destruct fb as [j|] eqn:Hfb
    end.
    - intros H. injection H as <-.
      destruct (HasUnexportedField _); [|discriminate].
      unfold generateStructWithUnexportedField in Hfb.
      destruct (negb _); [discriminate|].
      destruct (_ && _) in Hfb; [|discriminate].
      injection Hfb as <-. exact I.
    - destruct (structDict _ _ _); simpl; intros H; [|discriminate].
      injection H as <-.
      destruct pr, o; try destruct (String.eqb _ _); exact I. }
  destruct v; try (simpl; discriminate);
    try (match goal with
         | |- generateValue _ ?x _ = _ -> _ =>
             change (Returns (generateLiteralValue x) = Returns (Some s)
                     -> starts_printing s)
         end;
         unfold generateLiteralValue;
         destruct (negb _); [discriminate|];
         destruct (IsCustomType _); intros H; injection H as <-; exact I).
  - rewrite generateValue_ptr. unfold generatePtrValue, generatePtrValue_.
    destruct (IsLiteralType (TypeOf v)) eqn:Hl.
    + unfold generatePtrLiteralValue. rewrite Hl. simpl negb. cbv iota.
      destruct (IsCustomType _); intros H; injection H as <-; exact I.
    + destruct (Kind_eqb _ _); [apply Hstruct|].
      destruct (if omitType then _ else _); simpl; [|discriminate].
      destruct (generateValue json_Marshal v false); simpl;
        intros H; try discriminate; injection H as <-; exact I.
  - destruct omitType; simpl; intros H; injection H as <-; exact I.
  - simpl. destruct (valuesItems _ _); simpl; [|discriminate].
    destruct omitType; simpl; intros H; injection H as <-; exact I.
  - simpl. destruct (valuesItems _ _); simpl; [|discriminate].
    destruct omitType; simpl; intros H; injection H as <-; exact I.
  - destruct omitType; simpl; intros H; injection H as <-; exact I.
  - simpl. destruct (mapDict _ _ _); simpl; [|discriminate].
    destruct omitType; simpl; intros H; injection H as <-; exact I.
  - rewrite generateValue_struct. apply Hstruct.
Qed.

(** The loop over the fields adds, in declaration order, one entry per
    field that is exported, not of an anonymous struct type and not zero. *)
Lemma structDict_entries (fields : list (FieldInfo * Value)) (d0 d : Entries) :
  structDict (generateValue json_Marshal) fields d0 = Returns d ->
  d = d0 ++
      flat_map
        (fun f =>
           if negb (IsUnexportedField (fst f))
              && negb (IsAnonymousStruct (TypeOf (snd f)))
              && negb (IsZero (snd f))
           then match generateValue json_Marshal (snd f) false with
                | Returns r => [(Some [Tok (Id (FieldName (fst f)))], r)]
                | Panics => []
                end
           else [])
        fields.
Proof.
  revert d0. induction fields as [|[f fv] rest IH]; intros d0 H; simpl in *.
  - injection H as <-. by rewrite app_nil_r.
  - destruct (IsUnexportedField f); simpl in *; [by apply IH|].
    destruct (IsAnonymousStruct (TypeOf fv)); simpl in *; [by apply IH|].
    destruct (IsZero fv); simpl in *; [by apply IH|].
    destruct (generateValue json_Marshal fv false) as [r|]; simpl in *;
      [|discriminate].
    apply IH in H. rewrite H. unfold Dict_set. by rewrite <- app_assoc.
Qed.

(** Fields that are skipped or zero are never compiled, so a record whose
    visible fields are all zero cannot panic. *)
Lemma structDict_all_zero (fields : list (FieldInfo * Value)) (d0 : Entries) :
  (forall f, In f fields -> IsUnexportedField (fst f) = false ->
             IsZero (snd f) = true) ->
  structDict (generateValue json_Marshal) fields d0 = Returns d0.
Proof.
  revert d0. induction fields as [|[f fv] rest IH]; intros d0 H; simpl.
  - reflexivity.
  - assert (Hrest : forall f, In f rest -> IsUnexportedField (fst f) = false ->
                              IsZero (snd f) = true)
      by (intros ???; apply H; [by right | done]).
    destruct (IsUnexportedField f) eqn:Hu; simpl; [by apply IH|].
    destruct (IsAnonymousStruct (TypeOf fv)); simpl; [by apply IH|].
    assert (Hz : IsZero fv = true) by (apply (H (f, fv)); [by left | done]).
    rewrite Hz. simpl. by apply IH.
Qed.

Lemma printed_app (d1 d2 : Entries) : printed (d1 ++ d2) = printed d1 ++ printed d2.
Proof. unfold printed. apply List.filter_app. Qed.

Lemma printed_flat_map {A : Type} (g : A -> Entries) (l : list A) :
  printed (flat_map g l) = flat_map (fun x => printed (g x)) l.
Proof.
  induction l as [|x l IH]; simpl; [reflexivity|].
  by rewrite printed_app, IH.
Qed.

(** [generatePtrValue] on a non-nil pointer, with the discarded call of
    the [omitType] branch resolved. *)
Lemma generatePtrValue_nonnil (e : Value) (omitType : bool) :
  generatePtrValue json_Marshal (VPtr e) omitType
  = if IsLiteralType (TypeOf e) then Returns (generatePtrLiteralValue e)
    else if Kind_eqb (Kind_of (TypeOf e)) reflect.Struct
    then generateStructValue json_Marshal e true omitType
    else let* r := generateValue json_Marshal e false in
         Returns (Some [Tok (Op "&"); Stmt r]).
Proof.
  unfold generatePtrValue, generatePtrValue_.
  destruct (IsLiteralType _); [reflexivity|].
  destruct (Kind_eqb _ _); [reflexivity|].
  destruct omitType; [|reflexivity].
  pose proof (generateValue_panics e) as Hp.
  destruct (generateValue json_Marshal e true),
    (generateValue json_Marshal e false); simpl in *; congruence.
Qed.

(** The record branch once the opaque fallback is ruled out. *)
Lemma generateStructValue_visible p n ms fields (ptrResult omitType : bool) :
  HasUnexportedField (TypeOf (VStruct p n ms fields))
  && ((T_Marshaler ms || PtrT_Marshaler ms)
      && (T_Unmarshaler ms || PtrT_Unmarshaler ms)) = false ->
  exists ts : Statement,
    generateStructValue json_Marshal (VStruct p n ms fields) ptrResult omitType
    = let* d := structDict (generateValue json_Marshal) fields [] in
      Returns (Some (ts ++ [Grp Values [Dict d]])).
Proof.
  intros H. unfold generateStructValue, generateStructValue_.
  unfold generateStructWithUnexportedField.
  simpl Kind_of. simpl Kind_eqb. simpl negb. cbv iota.
  simpl Implements_Marshaler. simpl PtrTo_Implements_Marshaler.
  simpl Implements_Unmarshaler. simpl PtrTo_Implements_Unmarshaler.
  destruct (HasUnexportedField _); simpl in H; [rewrite H|]; eauto.
Qed.

(** The record branch when the opaque fallback applies. *)
Lemma generateStructValue_opaque p n ms fields (ptrResult omitType : bool) :
  HasUnexportedField (TypeOf (VStruct p n ms fields)) = true ->
  (T_Marshaler ms || PtrT_Marshaler ms)
  && (T_Unmarshaler ms || PtrT_Unmarshaler ms) = true ->
  generateStructValue json_Marshal (VStruct p n ms fields) ptrResult omitType
  = Returns (generateStructWithUnexportedField json_Marshal
               (VStruct p n ms fields) ptrResult).
Proof.
  intros Hu Hm. unfold generateStructValue, generateStructValue_.
  rewrite Hu. unfold generateStructWithUnexportedField.
  simpl Kind_of. simpl Kind_eqb. simpl negb. cbv iota.
  simpl Implements_Marshaler. simpl PtrTo_Implements_Marshaler.
  simpl Implements_Unmarshaler. simpl PtrTo_Implements_Unmarshaler.
  by rewrite Hm.
Qed.

(** The loop over the fields, in full: it panics exactly when a field it
    compiles panics, and otherwise appends the entries in order. *)
Lemma structDict_total (fields : list (FieldInfo * Value)) (d0 : Entries) :
  structDict (generateValue json_Marshal) fields d0
  = if forallb
         (fun f =>
            negb (negb (IsUnexportedField (fst f))
                  && negb (IsAnonymousStruct (TypeOf (snd f)))
                  && negb (IsZero (snd f)))
            || negb (panics (generateValue json_Marshal (snd f) false)))
         fields
    then Returns
           (d0 ++
            flat_map
              (fun f =>
                 if negb (IsUnexportedField (fst f))
                    && negb (IsAnonymousStruct (TypeOf (snd f)))
                    && negb (IsZero (snd f))
                 then match generateValue json_Marshal (snd f) false with
                      | Returns r => [(Some [Tok (Id (FieldName (fst f)))], r)]
                      | Panics => []
                      end
                 else [])
              fields)
    else Panics.
Proof.
  revert d0. induction fields as [|[f fv] rest IH]; intros d0; simpl.
  - by rewrite app_nil_r.
  - destruct (IsUnexportedField f); simpl; [apply IH|].
    destruct (IsAnonymousStruct (TypeOf fv)); simpl; [apply IH|].
    destruct (IsZero fv); simpl; [apply IH|].
    destruct (generateValue json_Marshal fv false) as [r|]; simpl;
      [|reflexivity].
    rewrite IH. unfold Dict_set. by rewrite <- app_assoc.
Qed.



End CompilerFacts.

(* ===================================================================== *)
(** ** Induction over values, through their elements and fields *)
(* ===================================================================== *)

Section ValueInduction.

Variable P : Value -> Prop.

Hypothesis P_leaf :
  forall v,
    match v with
    | VPtr _ | VSlice _ _ | VArray _ _ | VMap _ _ _ | VStruct _ _ _ _ => False
    | _ => True
    end -> P v.
Hypothesis P_ptr : forall e, P e -> P (VPtr e).
Hypothesis P_slice : forall t l, Forall P l -> P (VSlice t l).
Hypothesis P_array : forall t l, Forall P l -> P (VArray t l).
Hypothesis P_map :
  forall k e l, Forall (fun kv => P (fst kv) /\ P (snd kv)) l -> P (VMap k e l).
Hypothesis P_struct :
  forall p n ms fields,
    Forall (fun f => P (snd f)) fields -> P (VStruct p n ms fields).

Lemma Value_nested_ind : forall v : Value, P v.
Proof.
  exact (fix Value_nested_ind (v : Value) : P v :=
  match v with
  | VPtr e => P_ptr e (Value_nested_ind e)
  | VSlice t l =>
      P_slice t l
        ((fix go (l : list Value) : Forall P l :=
            match l with
            | [] => @List.Forall_nil _ _
            | x :: l' => @List.Forall_cons _ _ x l' (Value_nested_ind x) (go l')
            end) l)
  | VArray t l =>
      P_array t l
        ((fix go (l : list Value) : Forall P l :=
            match l with
            | [] => @List.Forall_nil _ _
            | x :: l' => @List.Forall_cons _ _ x l' (Value_nested_ind x) (go l')
            end) l)
  | VMap k e l =>
      P_map k e l
        ((fix go (l : list (Value * Value))
            : Forall (fun kv => P (fst kv) /\ P (snd kv)) l :=
            match l with
            | [] => @List.Forall_nil _ _
            | (kv, vv) :: l' =>
                @List.Forall_cons _ _ (kv, vv) l'
                  (conj (Value_nested_ind kv) (Value_nested_ind vv)) (go l')
            end) l)
  | VStruct p n ms fields =>
      P_struct p n ms fields
        ((fix go (l : list (FieldInfo * Value))
            : Forall (fun f => P (snd f)) l :=
            match l with
            | [] => @List.Forall_nil _ _
            | (f, x) :: l' =>
                @List.Forall_cons _ _ (f, x) l' (Value_nested_ind x) (go l')
            end) fields)
  | v => P_leaf v I
  end).
Qed.

End ValueInduction.

(* ===================================================================== *)
(** ** A failing serialization is read as the empty text *)
(* ===================================================================== *)

Section MarshalError.

Variables json_Marshal json_Marshal' : Value -> option string.

Hypothesis same_text :
  forall v, default "" (json_Marshal v) = default "" (json_Marshal' v).

Lemma generateStructWithUnexportedField_text (v : Value) (ptrResult : bool) :
  generateStructWithUnexportedField json_Marshal v ptrResult
  = generateStructWithUnexportedField json_Marshal' v ptrResult.
Proof.
  unfold generateStructWithUnexportedField.
  destruct (negb _); [reflexivity|]. destruct (_ && _); [|reflexivity].
  pose proof (same_text v) as H. unfold default in H.
  destruct (json_Marshal v), (json_Marshal' v); simpl in H; by rewrite ?H.
Qed.

Lemma structDict_ext (gv gv' : Value -> bool -> result (option Statement))
  (fields : list (FieldInfo * Value)) (d : Entries) :
  Forall (fun f => forall o, gv (snd f) o = gv' (snd f) o) fields ->
  structDict gv fields d = structDict gv' fields d.
Proof.
  intros H. revert d.
  induction H as [|[f fv] rest Hf _ IH]; intros d; simpl; [reflexivity|].
  simpl in Hf. rewrite Hf.
  destruct (_ || _); [apply IH|]. destruct (negb _); [|apply IH].
  destruct (gv' fv false); simpl; [apply IH | reflexivity].
Qed.

Lemma valuesItems_ext (gv gv' : Value -> bool -> result (option Statement))
  (elems : list Value) :
  Forall (fun x => forall o, gv x o = gv' x o) elems ->
  valuesItems gv elems = valuesItems gv' elems.
Proof.
  induction 1 as [|x rest Hx _ IH]; simpl; [reflexivity|].
  by rewrite Hx, IH.
Qed.

Lemma mapDict_ext (gv gv' : Value -> bool -> result (option Statement))
  (entries : list (Value * Value)) (d : Entries) :
  Forall (fun kv => (forall o, gv (fst kv) o = gv' (fst kv) o)
                    /\ (forall o, gv (snd kv) o = gv' (snd kv) o)) entries ->
  mapDict gv entries d = mapDict gv' entries d.
Proof.
  intros H. revert d.
  induction H as [|[k x] rest [Hk Hx] _ IH]; intros d; simpl; [reflexivity|].
  simpl in Hk, Hx. rewrite Hk, Hx.
  destruct (gv' k false); simpl; [|reflexivity].
  destruct (gv' x true); simpl; [apply IH | reflexivity].
Qed.

(** The compiler reads [json.Marshal] only through the text it embeds, so
    an error and the empty text give the same code. *)
Lemma generateValue_text (v : Value) :
  (forall o, generateValue json_Marshal v o = generateValue json_Marshal' v o)
  /\ (forall p o, generateStructValue json_Marshal v p o
                  = generateStructValue json_Marshal' v p o).
Proof.
  revert v.
  apply Value_nested_ind;
    [intros v Hleaf | intros v IHv | intros t l IH | intros t l IH
     | intros k e l IH | intros p n ms fields IH].
  - destruct v; try contradiction; split; reflexivity.
  - destruct IHv as [IHg IHs]. split; [|reflexivity].
    intros o. rewrite !generateValue_ptr.
    unfold generatePtrValue, generatePtrValue_.
    destruct (IsLiteralType _); [reflexivity|].
    destruct (Kind_eqb _ _); [apply IHs|].
    by rewrite !IHg.
  - split; [|reflexivity]. intros o. simpl.
    rewrite (valuesItems_ext _ (generateValue json_Marshal') l);
      [reflexivity|].
    eapply Forall_impl; [eassumption|]. by intros x [Hx _].
  - split; [|reflexivity]. intros o. simpl.
    rewrite (valuesItems_ext _ (generateValue json_Marshal') l);
      [reflexivity|].
    eapply Forall_impl; [eassumption|]. by intros x [Hx _].
  - split; [|reflexivity]. intros o. simpl.
    rewrite (mapDict_ext _ (generateValue json_Marshal') l);
      [reflexivity|].
    eapply Forall_impl; [eassumption|].
    intros kv [[Hk _] [Hx _]]. by split.
  - assert (Hs : forall pr o,
               generateStructValue json_Marshal (VStruct p n ms fields) pr o
               = generateStructValue json_Marshal' (VStruct p n ms fields) pr o).
    { intros pr o. unfold generateStructValue, generateStructValue_.
      rewrite generateStructWithUnexportedField_text.
      rewrite (structDict_ext _ (generateValue json_Marshal') fields);
        [reflexivity|].
      eapply Forall_impl; [eassumption|]. by intros f [Hf _]. }
    split; [|exact Hs]. intros o. rewrite !generateValue_struct. apply Hs.
Qed.

End MarshalError.

(* ===================================================================== *)
(** ** The entries of a compiled record *)
(* ===================================================================== *)

Section RecordEntries.

Variable json_Marshal : Value -> option string.




(** A record never compiles to nothing. *)
Lemma generateStructValue_Some p n ms fields (ptrResult omitType : bool)
  (r : option Statement) :
  generateStructValue json_Marshal (VStruct p n ms fields) ptrResult omitType
  = Returns r ->
  exists s, r = Some s.
Proof.
  unfold generateStructValue, generateStructValue_.
  destruct (if HasUnexportedField _ then _ else _).
  - intros H. injection H as <-. eauto.
  - destruct (structDict _ _ _); simpl; [|discriminate].
    intros H. injection H as <-. eauto.
Qed.



End RecordEntries.

Section RecordPanics.

Variable json_Marshal : Value -> option string.

(** A record compiled field by field panics exactly when one of the
    fields it compiles does. *)
Lemma generateStructValue_panics_fields p n ms fields
  (ptrResult omitType : bool) :
  HasUnexportedField (TypeOf (VStruct p n ms fields))
  && ((T_Marshaler ms || PtrT_Marshaler ms)
      && (T_Unmarshaler ms || PtrT_Unmarshaler ms)) = false ->
  panics (generateStructValue json_Marshal (VStruct p n ms fields)
            ptrResult omitType)
  = negb (forallb
            (fun f => negb (passes f)
                      || negb (panics (generateValue json_Marshal (snd f) false)))
            fields).
Proof.
  intros Hvis.
  destruct (generateStructValue_visible json_Marshal p n ms fields
              ptrResult omitType Hvis) as [ts Heq].
  rewrite Heq, structDict_total. unfold passes.
  by destruct (forallb _ fields).
Qed.


End RecordPanics.

(* ===================================================================== *)
(** ** The value compiler: scalars, pointers and records *)
(* ===================================================================== *)

Section CompilerClaims.

Variable json_Marshal : Value -> option string.

Lemma wrap_signed_in_range (w i : Z) :
  (0 < w)%Z -> (- 2 ^ (w - 1) <= i < 2 ^ (w - 1))%Z -> wrap_signed w i = i.
Proof.
  intros Hw Hi. unfold wrap_signed.
  assert (H2 : (2 ^ w = 2 * 2 ^ (w - 1))%Z).
  { rewrite <- Z.pow_succ_r by lia. f_equal. lia. }
  rewrite Z.mod_small by lia. lia.
Qed.

Lemma wrap_unsigned_in_range (w u : Z) :
  (0 <= u < 2 ^ w)%Z -> wrap_unsigned w u = u.
Proof. intros Hu. unfold wrap_unsigned. by apply Z.mod_small. Qed.

(** The conversions of [generateBuiltinLiteralValue] leave a scalar that
    [reflect] can hold as it is: the literal is the constant the scalar
    denotes. *)
Lemma generateBuiltinLiteralValue_denotes (v : Value) :
  IsLiteralType (TypeOf v) = true ->
  in_range v = true ->
  generateBuiltinLiteralValue v = [Tok (Lit (spec_literalValue v))].
Proof.
  intros Hlit Hr. unfold generateBuiltinLiteralValue.
  destruct v as [p n b|k p n i|k p n u|k p n bits|k p n re im|p n s|p n a
                 |t|e|t|t l|t l|kt t|kt t l|t b|b|p n b|p n ms fields];
    try discriminate Hlit; cbn [spec_literalValue].
  - by destruct b.
  - cbn [in_range] in Hr. apply andb_prop in Hr as [H1 H2].
    apply Z.leb_le in H1. apply Z.ltb_lt in H2.
    destruct k; cbn [IntKind_bits] in *; unfold intSize in *;
      rewrite ?wrap_signed_in_range by (simpl; lia); reflexivity.
  - cbn [in_range] in Hr. apply andb_prop in Hr as [H1 H2].
    apply Z.leb_le in H1. apply Z.ltb_lt in H2.
    destruct k; cbn [UintKind_bits] in *; unfold intSize in *;
      rewrite ?wrap_unsigned_in_range by (simpl; lia); reflexivity.
  - by destruct k.
  - reflexivity.
Qed.

(** C5: a scalar whose type is a custom named type compiles to the
    constant it denotes wrapped in a conversion to that type,
    [TypeName(literalValue)]; a non-nil pointer to such a scalar compiles
    to a call of the pointer-of helper of its kind on that constant,
    wrapped in a cast to the pointer-to-named type,
    [( *TypeName)(pointer.Kind(literalValue))].  The scalars are those
    [reflect] can hold: an integer lies in the range of its kind. *)
Theorem C5_custom_scalar_conversion (v : Value) (omitType : bool) :
  IsLiteralType (TypeOf v) = true ->
  IsCustomType (TypeOf v) = true ->
  in_range v = true ->
  spec_literalValue v <> LitNil /\
  generateValue json_Marshal v omitType
  = Returns
      (Some [Tok (Qual (PkgPath (TypeOf v)) (Name (TypeOf v)));
             Grp Parens [Stmt (Some [Tok (Lit (spec_literalValue v))])]]) /\
  generateValue json_Marshal (VPtr v) omitType
  = Returns
      (Some [Grp Parens
               [Stmt (Some [Tok (Op "*");
                            Tok (Qual (PkgPath (TypeOf v)) (Name (TypeOf v)))])];
             Grp Parens
               [Stmt (Some
                  [Tok (Qual "github.com/zoumo/golib/pointer"
                          (spec_pointer_of (Kind_of (TypeOf v))));
                   Grp Call [Stmt (Some [Tok (Lit (spec_literalValue v))])]])]]).
Proof.
  intros Hlit Hcustom Hrange.
  assert (Hv : generateValue json_Marshal v omitType
               = Returns (generateLiteralValue v)).
  { destruct v; simpl in Hlit; try discriminate; simpl; reflexivity. }
  assert (Hp : generateValue json_Marshal (VPtr v) omitType
               = Returns (generatePtrLiteralValue v)).
  { rewrite generateValue_ptr. unfold generatePtrValue, generatePtrValue_.
    by rewrite Hlit. }
  assert (Hh : Capitalize (Kind_String (Kind_of (TypeOf v)))
               = spec_pointer_of (Kind_of (TypeOf v))).
  { destruct v as [| k ? ? ?| k ? ? ?| k ? ? ?| | | | | | | | | | | | | |];
      try discriminate Hlit; try destruct k; reflexivity. }
  rewrite Hv, Hp. unfold generateLiteralValue, generatePtrLiteralValue.
  rewrite Hlit, Hcustom, Hh, (generateBuiltinLiteralValue_denotes v Hlit Hrange).
  split; [|split; reflexivity].
  destruct v; try discriminate Hlit; discriminate.
Qed.

(** C6: a non-nil pointer is compiled by [generatePtrValue]: a scalar
    pointee goes to the pointer-literal renderer, a record pointee is
    compiled with [ptrResult] set, and any other pointee is compiled and
    prefixed with the address-of operator. *)
Theorem C6_pointer_dispatch (e : Value) (omitType : bool) :
  generateValue json_Marshal (VPtr e) omitType
  = generatePtrValue json_Marshal (VPtr e) omitType /\
  generatePtrValue json_Marshal (VPtr e) omitType
  = if IsLiteralType (TypeOf e) then Returns (generatePtrLiteralValue e)
    else if Kind_eqb (Kind_of (TypeOf e)) reflect.Struct
    then generateStructValue json_Marshal e true omitType
    else let* r := generateValue json_Marshal e false in
         Returns (Some [Tok (Op "&"); Stmt r]).
Proof.
  split; [apply generateValue_ptr | apply generatePtrValue_nonnil].
Qed.

(** C10: for a non-nil pointer whose pointee is neither a scalar nor a
    record, [omitType] has no effect: with either flag the result is the
    pointee compiled with types, prefixed with the address-of operator. *)
Theorem C10_pointer_ignores_omitType (e : Value) :
  IsLiteralType (TypeOf e) = false ->
  Kind_of (TypeOf e) <> reflect.Struct ->
  generatePtrValue json_Marshal (VPtr e) true
  = generatePtrValue json_Marshal (VPtr e) false /\
  generateValue json_Marshal (VPtr e) true
  = generateValue json_Marshal (VPtr e) false /\
  generateValue json_Marshal (VPtr e) false
  = let* r := generateValue json_Marshal e false in
    Returns (Some [Tok (Op "&"); Stmt r]).
Proof.
  intros Hlit Hk.
  assert (Hs : Kind_eqb (Kind_of (TypeOf e)) reflect.Struct = false).
  { destruct (Kind_eqb _ _) eqn:E; [|reflexivity].
    by apply Kind_eqb_eq in E. }
  rewrite !generateValue_ptr.
  rewrite !generatePtrValue_nonnil, Hlit, Hs. auto.
Qed.

(** C2 (amended): a record with a private field whose type, or pointer
    type, implements both [json.Marshaler] and [json.Unmarshaler] never
    compiles to a composite literal: it compiles to an immediately invoked
    function without parameters that unmarshals the embedded JSON text
    into a variable and returns it, or its address when [ptrResult] is
    set.  This holds for the record itself and behind a pointer. *)
Theorem C2_opaque_record_fallback p n ms fields (ptrResult omitType : bool) :
  HasUnexportedField (TypeOf (VStruct p n ms fields)) = true ->
  (T_Marshaler ms || PtrT_Marshaler ms)
  && (T_Unmarshaler ms || PtrT_Unmarshaler ms) = true ->
  let v := VStruct p n ms fields in
  let T := Stmt (Some [Tok (Qual p n)]) in
  let invoked (ptrResult : bool) : Statement :=
    [Tok (Keyword "func"); Grp Params []]
    ++ (if ptrResult then [Tok (Op "*")] else [])
    ++ [T;
        Grp Block
          [Stmt (Some [Tok (Id "jsonStr"); Tok (Op ":=");
                       Tok (Lit (LitString
                                   (default "" (json_Marshal v))))]);
           Stmt (Some [Tok (Keyword "var"); Tok (Id "obj"); T]);
           Stmt (Some [Tok (Qual "encoding/json" "Unmarshal");
                       Grp Call
                         [Stmt (Some [Grp Index []; Tok (Id "byte");
                                      Grp Parens
                                        [Stmt (Some [Tok (Id "jsonStr")])]]);
                          Stmt (Some [Tok (Op "&"); Tok (Id "obj")])]]);
           Stmt (Some [Grp Return
                         [Stmt (Some (if ptrResult
                                      then [Tok (Op "&"); Tok (Id "obj")]
                                      else [Tok (Id "obj")]))]])];
        Grp Call []] in
  generateStructValue json_Marshal v ptrResult omitType
  = Returns (Some (invoked ptrResult)) /\
  is_composite_literal (invoked ptrResult) = false /\
  generateValue json_Marshal v omitType = Returns (Some (invoked false)) /\
  generateValue json_Marshal (VPtr v) omitType = Returns (Some (invoked true)).
Proof.
  intros Hu Hm v T invoked.
  assert (Hs : forall pr o,
             generateStructValue json_Marshal v pr o
             = Returns (Some (invoked pr))).
  { intros pr o. subst v. rewrite generateStructValue_opaque by done.
    unfold generateStructWithUnexportedField.
    simpl Kind_of. simpl Kind_eqb. simpl negb. cbv iota.
    simpl Implements_Marshaler. simpl PtrTo_Implements_Marshaler.
    simpl Implements_Unmarshaler. simpl PtrTo_Implements_Unmarshaler.
    rewrite Hm. subst invoked T. simpl PkgPath. simpl reflect.Name.
    destruct (json_Marshal _), pr; reflexivity. }
  split; [apply Hs|]. split; [by destruct ptrResult|].
  split.
  - subst v. rewrite generateValue_struct. apply Hs.
  - rewrite generateValue_ptr, generatePtrValue_nonnil. subst v.
    simpl IsLiteralType. cbv iota. simpl Kind_eqb. cbv iota. apply Hs.
Qed.

(** C4 (amended): in the composite literal of a record, the entries that
    are printed are, in declaration order, those of the fields that are
    (a) exported, (b) not of an anonymous record type, (c) not zero and
    (d) compiled to an expression rather than to nothing (channels,
    functions and the other kinds the compiler skips compile to nothing);
    when the field names are distinct, a field has a printed entry exactly
    when (a) to (d) hold.  A record whose exported fields are all zero
    compiles to a literal without entries. *)
Theorem C4_record_field_entries p n ms fields (ptrResult omitType : bool) :
  HasUnexportedField (TypeOf (VStruct p n ms fields))
  && ((T_Marshaler ms || PtrT_Marshaler ms)
      && (T_Unmarshaler ms || PtrT_Unmarshaler ms)) = false ->
  let v := VStruct p n ms fields in
  let entry (f : FieldInfo * Value) (e : Statement) :=
    (Some [Tok (Id (FieldName (fst f)))], Some e) in
  let passes (f : FieldInfo * Value) : bool :=
    negb (IsUnexportedField (fst f))
    && negb (IsAnonymousStruct (TypeOf (snd f)))
    && negb (IsZero (snd f)) in
  (forall s : Statement,
     generateStructValue json_Marshal v ptrResult omitType = Returns (Some s) ->
     exists (ts : Statement) (d : Entries),
       s = ts ++ [Grp Values [Dict d]] /\
       printed d
       = flat_map
           (fun f =>
              if passes f
              then match generateValue json_Marshal (snd f) false with
                   | Returns (Some e) => [entry f e]
                   | _ => []
                   end
              else [])
           fields /\
       (NoDup (List.map (fun f => FieldName (fst f)) fields) ->
        forall f, In f fields ->
          ((exists e, In (entry f e) (printed d))
           <-> passes f = true
               /\ generateValue json_Marshal (snd f) false <> Returns None))) /\
  ((forall f, In f fields -> IsUnexportedField (fst f) = false ->
              IsZero (snd f) = true) ->
   exists ts : Statement,
     generateStructValue json_Marshal v ptrResult omitType
     = Returns (Some (ts ++ [Grp Values [Dict []]]))).
Proof.
  intros Hvis v entry passes.
  destruct (generateStructValue_visible json_Marshal p n ms fields
              ptrResult omitType Hvis) as [ts Heq].
  fold v in Heq. split.
  - intros s Hs. rewrite Heq in Hs.
    destruct (structDict _ fields []) as [d|] eqn:Hd; [|discriminate].
    simpl in Hs. injection Hs as <-.
    exists ts, d. split; [reflexivity|].
    pose proof (structDict_entries json_Marshal fields [] d Hd) as Hent.
    simpl in Hent.
    assert (Hpr : printed d
                  = flat_map
                      (fun f =>
                         if passes f
                         then match generateValue json_Marshal (snd f) false with
                              | Returns (Some e) => [entry f e]
                              | _ => []
                              end
                         else []) fields).
    { rewrite Hent, printed_flat_map. apply flat_map_ext. intros f.
      subst passes. cbv beta.
      destruct (negb (IsUnexportedField (fst f))
                && negb (IsAnonymousStruct (TypeOf (snd f)))
                && negb (IsZero (snd f))); [|reflexivity].
      destruct (generateValue json_Marshal (snd f) false) as [[e|]|];
        reflexivity. }
    split; [exact Hpr|].
    intros Hnd f Hf. rewrite Hpr. split.
    + intros [e He]. apply in_flat_map in He as [f' [Hf' He]].
      assert (f' = f) as ->.
      { destruct (passes f'); [|destruct He].
        destruct (generateValue json_Marshal (snd f') false) as [[e'|]|];
          [|destruct He|destruct He].
        destruct He as [He|[]]. subst entry. simpl in He.
        injection He as Hname _.
        clear -Hnd Hf Hf' Hname.
        induction fields as [|g rest IH]; [destruct Hf|].
        simpl in Hnd. apply NoDup_cons in Hnd as [Hg Hnd].
        destruct Hf as [->|Hf], Hf' as [->|Hf']; auto.
        - exfalso. apply Hg. rewrite <- Hname.
          apply list_elem_of_In, in_map_iff. eauto.
        - exfalso. apply Hg. rewrite Hname.
          apply list_elem_of_In, in_map_iff. eauto. }
      destruct (passes f); [|destruct He]. split; [reflexivity|].
      destruct (generateValue json_Marshal (snd f) false) as [[e'|]|];
        [discriminate | destruct He | discriminate].
    + intros [Hp Hne].
      assert (Hnp : forall f, In f fields -> passes f = true ->
                      generateValue json_Marshal (snd f) false <> Panics).
      { clear -Hd. revert Hd. generalize (@nil (option Statement * option Statement)).
        induction fields as [|[g gv] rest IH]; intros d0 Hd f' Hf' Hp';
          [destruct Hf'|].
        simpl in Hd. subst passes. simpl in *.
        destruct Hf' as [<-|Hf'].
        - simpl in Hp'. apply andb_prop in Hp' as [Hp' Hz].
          apply andb_prop in Hp' as [Hu Ha].
          apply negb_true_iff in Hu, Ha, Hz. rewrite Hu, Ha, Hz in Hd.
          simpl in Hd |- *. intros E. rewrite E in Hd. discriminate.
        - destruct (IsUnexportedField g); simpl in Hd; [by eapply IH|].
          destruct (IsAnonymousStruct _); simpl in Hd; [by eapply IH|].
          destruct (IsZero gv); simpl in Hd; [by eapply IH|].
          destruct (generateValue json_Marshal gv false); simpl in Hd;
            [by eapply IH | discriminate]. }
      specialize (Hnp f Hf Hp).
      destruct (generateValue json_Marshal (snd f) false) as [[e|]|] eqn:E;
        try congruence.
      exists e. apply in_flat_map. exists f. split; [done|].
      rewrite Hp, E. by left.
  - intros Hz. exists ts. rewrite Heq.
    by rewrite (structDict_all_zero json_Marshal fields [] Hz).
Qed.

End CompilerClaims.

(* ===================================================================== *)
(** ** The group emitter *)
(* ===================================================================== *)

Section GeneratorFacts.

Variable w : World.






End GeneratorFacts.

Section GeneratorClaims.

Variable w : World.


(** The aggregator lists the calls in the order in which [range] yields
    the definitions of the group. *)
Lemma GenerateGroup_loop_calls
  (crds : list (GroupKind * CustomResourceDefinition)) (group : string)
  (f0 f : File) (l0 l : list Code) :
  GenerateGroup_loop w crds group f0 l0 = Returns (f, l) ->
  l = l0 ++
      List.map
        (fun e => Stmt (Some [Tok (Id (New_CRD (Kind (fst e)))); Grp Call []]))
        (List.filter (fun e => String.eqb (Group (fst e)) group) crds).
Proof.
  revert f0 l0. induction crds as [|[gk crd] rest IH]; intros f0 l0 H.
  - simpl in H. injection H as <- <-. by rewrite app_nil_r.
  - simpl in *. destruct (String.eqb (Group gk) group); simpl in *.
    + destruct (GenerateValue (Marshal w) (VPtr (ValueOf crd)));
        [|discriminate].
      simpl in H. apply IH in H. by rewrite <- app_assoc in H.
    + by apply IH in H.
Qed.


(** [Generate] past its early returns: the groups are emitted from the
    protected definitions. *)
Lemma Generate_protects_first (g : Generator) (text : string)
  (metav1Pkg : Package) :
  (if negb (String.eqb (HeaderFile g) "")
   then ReadFile w (HeaderFile g) else inl "") = inl text ->
  FindMetav1 w = Some metav1Pkg ->
  let parser0 :=
    newParser w (match AllowDangerousTypes g with
                 | Some b => b
                 | None => false
                 end) in
  let kubeKinds := FindKubeKinds w parser0 metav1Pkg in
  let parsed :=
    fold_left (fun p groupKind => NeedCRDFor w p groupKind (MaxDescLen g))
      kubeKinds parser0 in
  kubeKinds <> [] ->
  Generate w g
  = Generate_groups w g
      (mkCodeWriter (ReplaceAll text " YEAR" (" " ++ Year g))
         (mkParser
            (List.map (fun e => (fst e, protect (snd e)))
               (CustomResourceDefinitions parsed))
            (GroupVersions parsed)))
      metav1Pkg (List.map Group kubeKinds).
Proof.
  intros Hheader Hmeta parser0 kubeKinds parsed Hne.
  unfold Generate. rewrite Hheader, Hmeta.
  subst parsed kubeKinds parser0. cbv zeta in *.
  destruct (FindKubeKinds w _ metav1Pkg); [done|]. reflexivity.
Qed.

(** What [writeFile] does, by cases. *)
Lemma writeFile_cases (filename : string) (f : File) :
  match Open w filename, Render w f with
  | Some err, _ => writeFile w filename f = ([], Returns (Some err))
  | None, Some err =>
      writeFile w filename f
      = ([Opened filename; Closed filename], Returns (Some err))
  | None, None =>
      writeFile w filename f
      = ([Opened filename; Written filename f; Closed filename], Returns None)
  end.
Proof.
  unfold writeFile. destruct (Open w filename); [reflexivity|].
  destruct (Render w f); reflexivity.
Qed.





(** One round of the loop of [Generate], by parts. *)
Lemma Generate_group_parts (g : Generator) (cw : codeWriter) (group : string) :
  let install :=
    if GenInstall g
    then GenerateGroupInstall w cw group (snd (packageOf w cw group))
    else ([], Returns None) in
  let crds :=
    if GenCRD g
    then GenerateGroup w cw group (snd (packageOf w cw group))
           (fst (packageOf w cw group))
    else ([], Returns None) in
  Generate_group w g cw group
  = match snd install with
    | Returns None =>
        (fst install ++ fst crds,
         match snd crds with
         | Returns None => None
         | r => Some r
         end)
    | r => (fst install, Some r)
    end.
Proof.
  intros install crds. subst install crds. unfold Generate_group.
  destruct (packageOf w cw group) as [goPackageName dirName]. cbn [fst snd].
  destruct (if GenInstall g then _ else _) as [ev1 [[e1|]|]]; cbn [fst snd];
    try reflexivity.
  destruct (if GenCRD g then _ else _) as [ev2 [[e2|]|]]; reflexivity.
Qed.

Lemma Generate_group_not_nil (g : Generator) (cw : codeWriter)
  (group : string) :
  snd (Generate_group w g cw group) <> Some (Returns None).
Proof.
  rewrite Generate_group_parts. cbv zeta.
  destruct (if GenInstall g
            then GenerateGroupInstall w cw group (snd (packageOf w cw group))
            else ([], Returns None)) as [ev1 [[e|]|]]; cbn [fst snd];
    try discriminate.
  destruct (if GenCRD g
            then GenerateGroup w cw group (snd (packageOf w cw group))
                   (fst (packageOf w cw group))
            else ([], Returns None)) as [ev2 [[e|]|]]; discriminate.
Qed.






(** C8 (amended): when the header file is not configured or was read,
    and the roots import no metadata package or hold no kinds, [Generate]
    returns nil and touches no output file. *)
Theorem C8_no_definitions_is_success (g : Generator) :
  (HeaderFile g = "" \/ exists text, ReadFile w (HeaderFile g) = inl text) ->
  (FindMetav1 w = None
   \/ exists metav1Pkg,
        FindMetav1 w = Some metav1Pkg
        /\ FindKubeKinds w
             (newParser w (match AllowDangerousTypes g with
                           | Some b => b
                           | None => false
                           end)) metav1Pkg = []) ->
  Generate w g = ([], Returns None).
Proof.
  intros Hheader Hnone. unfold Generate.
  assert (Hh : exists text,
             (if negb (String.eqb (HeaderFile g) "")
              then ReadFile w (HeaderFile g) else inl "") = inl text).
  { destruct Hheader as [->|[text Ht]]; [by exists ""|].
    destruct (negb _); eauto. }
  destruct Hh as [text ->].
  destruct Hnone as [->|(pkg & -> & ->)]; reflexivity.
Qed.

End GeneratorClaims.

(* ===================================================================== *)
(** ** Serialization errors *)
(* ===================================================================== *)

(** Two worlds whose serializations embed the same text build the same
    constructor functions. *)
Lemma GenerateGroup_loop_text (w w' : World)
  (crds : list (GroupKind * CustomResourceDefinition)) (group : string)
  (f0 : File) (l0 : list Code) :
  (forall v, default "" (Marshal w v) = default "" (Marshal w' v)) ->
  GenerateGroup_loop w crds group f0 l0 = GenerateGroup_loop w' crds group f0 l0.
Proof.
  intros Htext. revert f0 l0.
  induction crds as [|[gk crd] rest IH]; intros f0 l0; simpl; [reflexivity|].
  destruct (negb _); [apply IH|].
  unfold GenerateValue.
  destruct (generateValue_text (Marshal w) (Marshal w') Htext
              (VPtr (ValueOf crd))) as [-> _].
  destruct (generateValue (Marshal w') _ false); simpl; [apply IH|reflexivity].
Qed.

(** C3 (amended): when serializing a record with private state fails,
    the error is dropped: the fallback embeds the empty text, exactly as
    if serialization had returned it, so [GenerateGroup] does the same as
    in a world where serialization never fails; the only errors it returns
    are those of opening and of rendering the file, and when both succeed
    the file is written and nil is returned. *)
Theorem C3_marshal_error_is_dropped (w : World) (cw : codeWriter)
  (group dirName goPackageName : string) :
  let filename := Join w [dirName; "zz.generated.crd.go"] in
  let w' :=
    mkWorld (fun v => Some (default "" (Marshal w v))) (ReadFile w) (Open w)
      (Render w) (Base w) (Dir w) (Join w) (NonVendorPath w) (newParser w)
      (FindMetav1 w) (FindKubeKinds w) (NeedCRDFor w) in
  (forall v ptrResult,
     Marshal w v = None ->
     generateStructWithUnexportedField (Marshal w) v ptrResult
     = generateStructWithUnexportedField (fun _ => Some "") v ptrResult)
  /\ GenerateGroup w cw group dirName goPackageName
     = GenerateGroup w' cw group dirName goPackageName
  /\ (forall err,
        snd (GenerateGroup w cw group dirName goPackageName)
        = Returns (Some err) ->
        Open w filename = Some err
        \/ exists f, GenerateGroup_file w cw group goPackageName = Returns f
                     /\ Render w f = Some err)
  /\ (forall f,
        GenerateGroup_file w cw group goPackageName = Returns f ->
        Open w filename = None ->
        Render w f = None ->
        GenerateGroup w cw group dirName goPackageName
        = ([Opened filename; Written filename f; Closed filename],
           Returns None)).
Proof.
  intros filename w'. split; [|split; [|split]].
  - intros v ptrResult Hv. unfold generateStructWithUnexportedField.
    by rewrite Hv.
  - unfold GenerateGroup, GenerateGroup_file.
    rewrite (GenerateGroup_loop_text w w'); [reflexivity|].
    intros v. subst w'. reflexivity.
  - intros err. unfold GenerateGroup.
    destruct (GenerateGroup_file w cw group goPackageName) as [f|];
      [|discriminate].
    fold filename. pose proof (writeFile_cases w filename f) as Hw.
    destruct (Open w filename) as [e|].
    + rewrite Hw. simpl. intros H. injection H as ->. by left.
    + destruct (Render w f) as [e|] eqn:Hr; rewrite Hw; simpl;
        [|discriminate].
      intros H. injection H as ->. right. eauto.
  - intros f Hf Ho Hr. unfold GenerateGroup. rewrite Hf. fold filename.
    pose proof (writeFile_cases w filename f) as Hw.
    by rewrite Ho, Hr in Hw.
Qed.

(* ===================================================================== *)
(** ** The generator toggle *)
(* ===================================================================== *)

Section Toggle.
Import codegen.

Lemma fold_left_add (l : list string) (d0 : gset string) :
  fold_left (fun d g => d ∪ {[g]}) l d0 = d0 ∪ list_to_set l.
Proof.
  revert d0. induction l as [|g l IH]; intros d0; simpl.
  - set_solver.
  - rewrite IH. set_solver.
Qed.

Lemma fold_left_all (l : list string) (disabled0 a0 : gset string) (x : string) :
  x ∈ fold_left (fun all g => (all ∪ {[g]}) ∪ disabled0) l a0
  <-> x ∈ a0 \/ x ∈ l \/ (l <> [] /\ x ∈ disabled0).
Proof.
  revert a0. induction l as [|g l IH]; intros a0; simpl.
  - set_solver.
  - rewrite IH. destruct l; set_solver.
Qed.

Lemma fold_left_addOption (opts : list string) (s : Toggles) :
  disabled (fold_left addOption opts s)
  = disabled s ∪ list_to_set (explicit_minus opts)
  /\ enabled (fold_left addOption opts s)
     = enabled s ∪ list_to_set (explicit_plus opts)
  /\ target (fold_left addOption opts s)
     = target s ∪ list_to_set (bare_names opts).
Proof.
  revert s. induction opts as [|opt opts IH]; intros s.
  - simpl. set_solver.
  - change (fold_left addOption (opt :: opts) s)
      with (fold_left addOption opts (addOption s opt)).
    destruct (IH (addOption s opt)) as (-> & -> & ->).
    unfold explicit_minus, explicit_plus, bare_names. simpl.
    destruct opt as [|c rest]; simpl; [done|].
    destruct (Ascii.eqb c "-") eqn:Hm; simpl.
    + apply Ascii.eqb_eq in Hm. subst c. simpl. set_solver.
    + destruct (Ascii.eqb c "+") eqn:Hp; simpl; set_solver.
Qed.

Lemma list_to_set_empty_iff (l : list string) :
  size (list_to_set l : gset string) = 0 <-> l = [].
Proof.
  rewrite size_empty_iff. destruct l; [set_solver|].
  split; [|done]. intros H. exfalso. set_solver.
Qed.

Lemma sublist_List_filter {A : Type} (f : A -> bool) (l : list A) :
  sublist (List.filter f l) l.
Proof.
  induction l as [|x l IH]; simpl; [constructor|].
  destruct (f x); by constructor.
Qed.

(** C9 (amended): without a bare name among the options, the effective
    set is [(default_enabled \ (default_disabled ∪ explicit_minus)) ∪
    explicit_plus], so an explicit [+name] wins over a disabling; with a
    bare name, the bare names are the whole set.  The result lists the
    valid generators of that set in the canonical order. *)
Theorem C9_enabled_generators
  (defaultEnabledGenerators defaultDisabledGenerators generatorsOptions
     : list string) :
  let effective : gset string :=
    match bare_names generatorsOptions with
    | [] =>
        (list_to_set defaultEnabledGenerators
           ∖ (list_to_set defaultDisabledGenerators
                ∪ list_to_set (explicit_minus generatorsOptions)))
          ∪ list_to_set (explicit_plus generatorsOptions)
    | bare => list_to_set bare
    end in
  EnabledGenerators defaultEnabledGenerators defaultDisabledGenerators
    generatorsOptions
  = List.filter (fun g => bool_decide (g ∈ effective)) sortedValidGenerators
  /\ sublist
       (EnabledGenerators defaultEnabledGenerators defaultDisabledGenerators
          generatorsOptions)
       sortedValidGenerators
  /\ forall g,
       In g (EnabledGenerators defaultEnabledGenerators
               defaultDisabledGenerators generatorsOptions)
       <-> In g sortedValidGenerators /\ g ∈ effective.
Proof.
  intros effective.
  assert (Heq : EnabledGenerators defaultEnabledGenerators
                  defaultDisabledGenerators generatorsOptions
                = List.filter (fun g => bool_decide (g ∈ effective))
                    sortedValidGenerators).
  { unfold EnabledGenerators.
    destruct (fold_left_addOption generatorsOptions
                (mkToggles
                   (fold_left (fun d g => d ∪ {[g]}) defaultDisabledGenerators ∅)
                   ∅ ∅)) as (Hd & He & Ht).
    rewrite Hd, He, Ht. cbn [disabled enabled target].
    rewrite fold_left_add.
    apply filter_ext. intros g. apply bool_decide_ext.
    subst effective. rewrite (left_id_L ∅ (∪)).
    case_bool_decide as Hsize.
    - apply list_to_set_empty_iff in Hsize. rewrite Hsize.
      rewrite !elem_of_union, !elem_of_difference, fold_left_all.
      set_solver.
    - destruct (bare_names generatorsOptions) eqn:Hb; [|done].
      exfalso. apply Hsize. by apply list_to_set_empty_iff. }
  split; [exact Heq|]. rewrite Heq. split.
  - apply sublist_List_filter.
  - intros g. rewrite filter_In, bool_decide_eq_true. reflexivity.
Qed.

End Toggle.

(* ===================================================================== *)
(** ** The claims on sample inputs *)
(* ===================================================================== *)

Import Examples.

(** C5 on [level5], a value of [type Level int32]: [api.Level(int32(5))]
    and [( *api.Level)(pointer.Int32(int32(5)))]. *)
Lemma C5_witness :
  IsLiteralType (TypeOf level5) = true
  /\ IsCustomType (TypeOf level5) = true
  /\ in_range level5 = true
  /\ generateValue marshal_fails level5 false
     = Returns (Some [Tok (Qual "example.com/api" "Level");
                      Grp Parens [Stmt (Some [Tok (Lit (LitInt KInt32 5))])]])
  /\ generateValue marshal_fails (VPtr level5) true
     = Returns
         (Some [Grp Parens
                  [Stmt (Some [Tok (Op "*");
                               Tok (Qual "example.com/api" "Level")])];
                Grp Parens
                  [Stmt (Some
                     [Tok (Qual "github.com/zoumo/golib/pointer" "Int32");
                      Grp Call [Stmt (Some [Tok (Lit (LitInt KInt32 5))])]])]]).
Proof.
  split; [reflexivity|]. split; [reflexivity|]. split; [reflexivity|].
  split.
  - destruct (C5_custom_scalar_conversion marshal_fails level5 false
                eq_refl eq_refl eq_refl) as (_ & H & _).
    exact H.
  - destruct (C5_custom_scalar_conversion marshal_fails level5 true
                eq_refl eq_refl eq_refl) as (_ & _ & H).
    exact H.
Defined.

(** C10 on a pointer to [[]string{"a"}]. *)
Lemma C10_witness :
  IsLiteralType (TypeOf names) = false
  /\ Kind_of (TypeOf names) <> reflect.Struct
  /\ generateValue marshal_fails (VPtr names) true
     = generateValue marshal_fails (VPtr names) false.
Proof.
  split; [reflexivity|]. split; [discriminate|].
  apply (C10_pointer_ignores_omitType marshal_fails names);
    [reflexivity | discriminate].
Defined.

(** C2, as stated, fails: a record with a private field and no JSON
    methods compiles to the composite literal [api.T{}]. *)
Lemma C2_counterexample :
  HasUnexportedField (TypeOf plain_private) = true
  /\ generateStructValue marshal_fails plain_private false false
     = Returns (Some [Tok (Qual "example.com/api" "T"); Grp Values [Dict []]])
  /\ is_composite_literal
       [Tok (Qual "example.com/api" "T"); Grp Values [Dict []]] = true.
Proof. repeat split. Qed.

(** C2 (amended) on a record with private state and JSON methods. *)
Lemma C2_witness :
  HasUnexportedField (TypeOf quantity) = true
  /\ (false || true) && (false || true) = true
  /\ exists s,
       generateValue marshal_fails quantity false = Returns (Some s)
       /\ is_composite_literal s = false.
Proof.
  split; [reflexivity|]. split; [reflexivity|].
  destruct (C2_opaque_record_fallback marshal_fails "example.com/api"
              "Quantity" (mkMethods false true false true)
              [(mkField "s" "example.com/api", string_Value "1Gi")]
              false false eq_refl eq_refl) as (_ & Hc & Hv & _).
  eexists. split; [exact Hv | exact Hc].
Defined.

(** C4, as stated, fails: the open channel [C] is exported, not of an
    anonymous record type and not zero, yet no entry is printed for it. *)
Lemma C4_counterexample :
  passes (mkField "C" "", VChan int_type false) = true
  /\ generateStructValue marshal_fails with_chan false false
     = Returns (Some [Tok (Qual "example.com/api" "T");
                      Grp Values [Dict [(Some [Tok (Id "C")], None)]]])
  /\ printed [(Some [Tok (Id "C")], None)] = [].
Proof. repeat split. Qed.

(** C4 (amended) on the widget of the spec: only [Size] is printed. *)
Lemma C4_witness :
  HasUnexportedField (TypeOf widget) && ((false || false) && (false || false))
  = false
  /\ exists (ts : Statement) (d : Entries),
       generateStructValue marshal_fails widget false false
       = Returns (Some (ts ++ [Grp Values [Dict d]]))
       /\ printed d
          = [(Some [Tok (Id "Size")], Some [Tok (Lit (LitInt KInt 5))])].
Proof.
  split; [reflexivity|].
  destruct (C4_record_field_entries marshal_fails "example.com/api" "Widget"
              noMethods
              [(mkField "Size" "", VInt KInt "" "int" 5);
               (mkField "Note" "", VNilPtr string_type)]
              false false eq_refl) as [H _].
  destruct (H _ eq_refl) as (ts & d & Hs & Hp & _).
  exists ts, d. split; [|exact Hp].
  change (generateStructValue marshal_fails widget false false
          = Returns (Some (ts ++ [Grp Values [Dict d]]))).
  rewrite <- Hs. reflexivity.
Defined.



(** C8, as stated, fails: nothing imports the metadata package, yet
    [Generate] returns the error of reading the header file. *)
Lemma C8_counterexample :
  FindMetav1 (world (inr (Error "no such file")) None [] []) = None
  /\ Generate (world (inr (Error "no such file")) None [] [])
       (mkGenerator None None "hack/boilerplate.go.txt" "" true true)
     = ([], Returns (Some (Error "no such file"))).
Proof. split; reflexivity. Qed.

(** C8 (amended) without header file and without metadata package. *)
Lemma C8_witness :
  (HeaderFile gen_all = "" \/
   exists text,
     ReadFile (world (inl "") None [] []) (HeaderFile gen_all) = inl text)
  /\ Generate (world (inl "") None [] []) gen_all = ([], Returns None).
Proof.
  split; [by left|].
  apply (C8_no_definitions_is_success (world (inl "") None [] []) gen_all);
    by left.
Defined.

(** C3, as stated, fails: serializing the status of the definition fails,
    yet [GenerateGroup] returns nil and writes the file of the group. *)
Lemma C3_counterexample :
  Marshal (world (inl "") (Some metav1) [] []) quantity = None
  /\ HasUnexportedField (TypeOf quantity) = true
  /\ exists f,
       GenerateGroup (world (inl "") (Some metav1) [] [])
         (mkCodeWriter ""
            (mkParser [(alpha, definition "example.com" quantity)] example_gvs))
         "example.com" "example" "example"
       = ([Opened "example/zz.generated.crd.go";
           Written "example/zz.generated.crd.go" f;
           Closed "example/zz.generated.crd.go"], Returns None).
Proof. split; [reflexivity|]. split; [reflexivity|]. eexists. reflexivity. Qed.

(** C3 (amended) on a definition whose status fails to serialize. *)
Lemma C3_witness :
  exists f,
    GenerateGroup_file (world (inl "") (Some metav1) [] [])
      (mkCodeWriter ""
         (mkParser [(alpha, definition "example.com" quantity)] example_gvs))
      "example.com" "example" = Returns f
    /\ GenerateGroup (world (inl "") (Some metav1) [] [])
         (mkCodeWriter ""
            (mkParser [(alpha, definition "example.com" quantity)] example_gvs))
         "example.com" "example" "example"
       = ([Opened "example/zz.generated.crd.go";
           Written "example/zz.generated.crd.go" f;
           Closed "example/zz.generated.crd.go"], Returns None).
Proof.
  eexists. split; [reflexivity|].
  destruct (C3_marshal_error_is_dropped
              (world (inl "") (Some metav1) [] [])
              (mkCodeWriter ""
                 (mkParser [(alpha, definition "example.com" quantity)]
                    example_gvs))
              "example.com" "example" "example") as (_ & _ & _ & H).
  apply (H _ eq_refl eq_refl eq_refl).
Defined.

(** C9, as stated, fails: [+openapi] enables a generator that is
    disabled by default, while the formula of the spec removes it. *)
Lemma C9_counterexample :
  codegen.EnabledGenerators [] ["openapi"] ["+openapi"] = ["openapi"]
  /\ "openapi" ∉ codegen.spec_effective [] ["openapi"] ["+openapi"].
Proof.
  split; [vm_compute; reflexivity|].
  assert (H : bool_decide ("openapi" ∈ codegen.spec_effective [] ["openapi"]
                             ["+openapi"]) = false)
    by (vm_compute; reflexivity).
  by apply bool_decide_eq_false in H.
Qed.

(** C1: [GenerateGroup] adds the constructor functions, and lists their
    calls in the aggregator, in the order in which [range] yields the
    definitions: two orders of the same two definitions give two
    different files, and [beta] before [alpha] is not the sorted order. *)
Theorem C1_group_file_follows_range_order :
  Permutation alpha_beta beta_alpha
  /\ (let* r := GenerateGroup_loop (world (inl "") (Some metav1) [] [])
                  alpha_beta "example.com" (NewFile "example") [] in
      Returns (snd r))
     = Returns [Stmt (Some [Tok (Id "NewAlphaCRD"); Grp Call []]);
                Stmt (Some [Tok (Id "NewBetaCRD"); Grp Call []])]
  /\ (let* r := GenerateGroup_loop (world (inl "") (Some metav1) [] [])
                  beta_alpha "example.com" (NewFile "example") [] in
      Returns (snd r))
     = Returns [Stmt (Some [Tok (Id "NewBetaCRD"); Grp Call []]);
                Stmt (Some [Tok (Id "NewAlphaCRD"); Grp Call []])]
  /\ GenerateGroup_file (world (inl "") (Some metav1) [] [])
       (mkCodeWriter "" (mkParser alpha_beta example_gvs))
       "example.com" "example"
     <> GenerateGroup_file (world (inl "") (Some metav1) [] [])
          (mkCodeWriter "" (mkParser beta_alpha example_gvs))
          "example.com" "example".
Proof.
  split; [apply perm_swap|]. split; [reflexivity|]. split; [reflexivity|].
  intros H.
  apply (f_equal (fun r => match r with
                           | Returns f => List.nth 1 (Items f) (Tok Line)
                           | Panics => Tok Line
                           end)) in H.
  vm_compute in H. discriminate H.
Qed.

(* ===================================================================== *)
(** ** More on the value compiler *)
(* ===================================================================== *)

Section CompilerCoverage.

Variable json_Marshal : Value -> option string.

Lemma valuesItems_panics (elems : list Value) :
  panics (valuesItems (generateValue json_Marshal) elems)
  = existsb (fun x => panics (generateValue json_Marshal x true)) elems.
Proof.
  induction elems as [|x rest IH]; simpl; [reflexivity|].
  destruct (generateValue json_Marshal x true); simpl; [|reflexivity].
  rewrite <- IH. by destruct (valuesItems _ rest).
Qed.

Lemma mapDict_panics (entries : list (Value * Value)) (d : Entries) :
  panics (mapDict (generateValue json_Marshal) entries d)
  = existsb (fun kv => panics (generateValue json_Marshal (fst kv) false)
                       || panics (generateValue json_Marshal (snd kv) true))
      entries.
Proof.
  revert d. induction entries as [|[k x] rest IH]; intros d; simpl;
    [reflexivity|].
  destruct (generateValue json_Marshal k false); simpl; [|reflexivity].
  destruct (generateValue json_Marshal x true); simpl; [|reflexivity].
  apply IH.
Qed.

Lemma reaches_nil_struct p n ms fields :
  reaches_nil (VStruct p n ms fields)
  = if HasUnexportedField (TypeOf (VStruct p n ms fields))
       && ((T_Marshaler ms || PtrT_Marshaler ms)
           && (T_Unmarshaler ms || PtrT_Unmarshaler ms))
    then false
    else existsb (fun f => passes f && reaches_nil (snd f)) fields.
Proof.
  cbn [reaches_nil]. destruct (_ && _); [reflexivity|].
  induction fields as [|[f x] rest IH]; [reflexivity|].
  cbn [existsb fst snd]. by rewrite <- IH.
Qed.

Lemma generateValue_panics_reaches_nil (v : Value) (omitType : bool) :
  panics (generateValue json_Marshal v omitType) = reaches_nil v.
Proof.
  enough (H : panics (generateValue json_Marshal v false) = reaches_nil v
              /\ forall pr o,
                   panics (generateStructValue json_Marshal v pr o)
                   = match v with
                     | VStruct _ _ _ _ => reaches_nil v
                     | _ => false
                     end).
  { destruct omitType; [|apply H].
    rewrite (generateValue_panics json_Marshal v). apply H. }
  revert v.
  apply Value_nested_ind;
    [intros v Hleaf | intros v IHv | intros t l IH | intros t l IH
     | intros k e l IH | intros p n ms fields IH].
  - destruct v; try contradiction; split; reflexivity.
  - destruct IHv as [IHg IHs]. split; [|reflexivity].
    rewrite generateValue_ptr, generatePtrValue_nonnil. cbn [reaches_nil].
    destruct (IsLiteralType (TypeOf v)) eqn:Hl.
    + destruct v; simpl in Hl; try discriminate; reflexivity.
    + destruct (Kind_eqb (Kind_of (TypeOf v)) reflect.Struct) eqn:Hk.
      * rewrite IHs. destruct v; simpl in Hk; try discriminate; try reflexivity.
        all: match goal with k : reflect.BasicKind |- _ => destruct k end;
          discriminate.
      * rewrite <- IHg.
        by destruct (generateValue json_Marshal v false).
  - split; [|reflexivity]. simpl generateValue.
    transitivity (panics (valuesItems (generateValue json_Marshal) l)).
    { by destruct (valuesItems _ l). }
    rewrite valuesItems_panics. cbn [reaches_nil].
    induction IH as [|x rest [Hx _] _ IH']; [reflexivity|].
    cbn [existsb]. rewrite IH'.
    by rewrite (generateValue_panics json_Marshal x), Hx.
  - split; [|reflexivity]. simpl generateValue.
    transitivity (panics (valuesItems (generateValue json_Marshal) l)).
    { by destruct (valuesItems _ l). }
    rewrite valuesItems_panics. cbn [reaches_nil].
    induction IH as [|x rest [Hx _] _ IH']; [reflexivity|].
    cbn [existsb]. rewrite IH'.
    by rewrite (generateValue_panics json_Marshal x), Hx.
  - split; [|reflexivity]. simpl generateValue.
    transitivity (panics (mapDict (generateValue json_Marshal) l [])).
    { by destruct (mapDict _ l []). }
    rewrite mapDict_panics. cbn [reaches_nil].
    induction IH as [|[kk x] rest [[Hk _] [Hx _]] _ IH']; [reflexivity|].
    cbn [existsb fst snd] in *. rewrite IH'.
    by rewrite Hk, (generateValue_panics json_Marshal x), Hx.
  - assert (Hs : forall pr o,
               panics (generateStructValue json_Marshal
                         (VStruct p n ms fields) pr o)
               = reaches_nil (VStruct p n ms fields)).
    { intros pr o. rewrite reaches_nil_struct.
      destruct (HasUnexportedField (TypeOf (VStruct p n ms fields))
                && ((T_Marshaler ms || PtrT_Marshaler ms)
                    && (T_Unmarshaler ms || PtrT_Unmarshaler ms))) eqn:Hf.
      - apply andb_prop in Hf as [Hu Hm].
        by rewrite (generateStructValue_opaque json_Marshal p n ms fields pr o Hu Hm).
      - rewrite (generateStructValue_panics_fields json_Marshal p n ms fields
                   pr o Hf).
        clear Hf. induction IH as [|f rest [Hf' _] _ IH']; [reflexivity|].
        cbn [forallb existsb]. rewrite negb_andb, IH'.
        f_equal. rewrite Hf'. destruct (passes f), (reaches_nil (snd f));
          reflexivity. }
    split; [|exact Hs]. rewrite generateValue_struct. apply Hs.
Qed.

(** X1: whether the compiler panics is decided by where the nil pointers
    are: it panics exactly when one sits behind a pointer, in a slice, an
    array or a map, or in a compiled field of a record compiled field by
    field.  The position flags play no part, and nothing but a nil pointer
    makes it panic. *)
Theorem X1_panics_iff_reaches_nil (v : Value) (ptrResult omitType : bool) :
  panics (generateValue json_Marshal v omitType) = reaches_nil v
  /\ panics (generatePtrValue json_Marshal (VPtr v) omitType) = reaches_nil v
  /\ (Kind_of (TypeOf v) = reflect.Struct ->
      panics (generateStructValue json_Marshal v ptrResult omitType)
      = reaches_nil v).
Proof.
  split; [apply generateValue_panics_reaches_nil|]. split.
  - rewrite <- generateValue_ptr.
    apply (generateValue_panics_reaches_nil (VPtr v)).
  - intros Hk.
    rewrite (generateStructValue_panics json_Marshal v ptrResult false
               omitType omitType).
    rewrite <- (generateValue_panics_reaches_nil v omitType).
    destruct v as [| k ? ? ?| k ? ? ?| k ? ? ?| k ? ? ? ?| | | | | | | | | | | | |];
      simpl in Hk; try discriminate; try (destruct k; discriminate).
    by rewrite generateValue_struct.
Qed.

Lemma generateStructValue_not_nil (v : Value) (pr o : bool) :
  Kind_of (TypeOf v) = reflect.Struct ->
  generateStructValue json_Marshal v pr o <> Returns None.
Proof.
  intros Hk H.
  destruct v as [| k ? ? ?| k ? ? ?| k ? ? ?| k ? ? ? ?| | | | | | | | | | | | |];
    simpl in Hk; try discriminate; try (destruct k; discriminate).
  by destruct (generateStructValue_Some json_Marshal _ _ _ _ _ _ _ H).
Qed.

Lemma generateLiteralValue_Some (v : Value) :
  IsLiteralType (TypeOf v) = true -> exists s, generateLiteralValue v = Some s.
Proof.
  intros Hl. unfold generateLiteralValue. rewrite Hl. simpl.
  destruct (IsCustomType _); eauto.
Qed.

Lemma generatePtrLiteralValue_Some (v : Value) :
  IsLiteralType (TypeOf v) = true ->
  exists s, generatePtrLiteralValue v = Some s.
Proof.
  intros Hl. unfold generatePtrLiteralValue. rewrite Hl. simpl.
  destruct (IsCustomType _); eauto.
Qed.

(** X2: the compiler returns the nil statement exactly for the kinds it
    has no case for or skips: channels, functions, interfaces, complex
    numbers and unsafe pointers.  A value of any other kind compiles to an
    expression or panics. *)
Theorem X2_nil_result_iff_skipped_kind (v : Value) (omitType : bool) :
  generateValue json_Marshal v omitType = Returns None
  <-> In (Kind_of (TypeOf v)) skipped_kinds.
Proof.
  assert (Hno : forall k, In k skipped_kinds ->
                  k = Chan \/ k = Func \/ k = Interface \/ k = Complex64
                  \/ k = Complex128 \/ k = UnsafePointer).
  { unfold skipped_kinds. simpl. intuition. }
  destruct v as [p n b|k p n i|k p n u|k p n bits|k p n re im|p n s|p n a
                 |t|e|t|t l|t l|kt t|kt t l|t b|b|p n b|p n ms fields].
  - split; [intros H; simpl in H;
            match type of H with
            | Returns (generateLiteralValue ?x) = _ =>
                destruct (generateLiteralValue_Some x eq_refl) as [s' Hs']
            end; congruence|].
    intros H. apply Hno in H. simpl in H. intuition discriminate.
  - split; [intros H; simpl in H;
            match type of H with
            | Returns (generateLiteralValue ?x) = _ =>
                destruct (generateLiteralValue_Some x eq_refl) as [s' Hs']
            end; congruence|].
    intros H. apply Hno in H. destruct k; simpl in H; intuition discriminate.
  - split; [intros H; simpl in H;
            match type of H with
            | Returns (generateLiteralValue ?x) = _ =>
                destruct (generateLiteralValue_Some x eq_refl) as [s' Hs']
            end; congruence|].
    intros H. apply Hno in H. destruct k; simpl in H; intuition discriminate.
  - split; [intros H; simpl in H;
            match type of H with
            | Returns (generateLiteralValue ?x) = _ =>
                destruct (generateLiteralValue_Some x eq_refl) as [s' Hs']
            end; congruence|].
    intros H. apply Hno in H. destruct k; simpl in H; intuition discriminate.
  - split; [|reflexivity]. intros _. unfold skipped_kinds.
    destruct k; simpl; tauto.
  - split; [intros H; simpl in H;
            match type of H with
            | Returns (generateLiteralValue ?x) = _ =>
                destruct (generateLiteralValue_Some x eq_refl) as [s' Hs']
            end; congruence|].
    intros H. apply Hno in H. simpl in H. intuition discriminate.
  - split; [|reflexivity]. intros _. unfold skipped_kinds. simpl; tauto.
  - split; [discriminate|].
    intros H. apply Hno in H. simpl in H. intuition discriminate.
  - split; [|intros H; apply Hno in H; simpl in H; intuition discriminate].
    rewrite generateValue_ptr, generatePtrValue_nonnil.
    destruct (IsLiteralType (TypeOf e)) eqn:Hl.
    { destruct (generatePtrLiteralValue_Some e Hl) as [s' ->].
      discriminate. }
    destruct (Kind_eqb (Kind_of (TypeOf e)) reflect.Struct) eqn:Hk.
    { apply Kind_eqb_eq in Hk. intros H.
      by destruct (generateStructValue_not_nil e true omitType Hk). }
    destruct (generateValue json_Marshal e false); discriminate.
  - split; [destruct omitType; discriminate|].
    intros H. apply Hno in H. simpl in H. intuition discriminate.
  - split; [|intros H; apply Hno in H; simpl in H; intuition discriminate].
    simpl. destruct (valuesItems _ l); simpl; [|discriminate].
    destruct omitType; discriminate.
  - split; [|intros H; apply Hno in H; simpl in H; intuition discriminate].
    simpl. destruct (valuesItems _ l); simpl; [|discriminate].
    destruct omitType; discriminate.
  - split; [destruct omitType; discriminate|].
    intros H. apply Hno in H. simpl in H. intuition discriminate.
  - split; [|intros H; apply Hno in H; simpl in H; intuition discriminate].
    simpl. destruct (mapDict _ l []); simpl; [|discriminate].
    destruct omitType; discriminate.
  - split; [|reflexivity]. intros _. unfold skipped_kinds. simpl; tauto.
  - split; [|reflexivity]. intros _. unfold skipped_kinds. simpl; tauto.
  - split; [|reflexivity]. intros _. unfold skipped_kinds. simpl; tauto.
  - split; [|intros H; apply Hno in H; simpl in H; intuition discriminate].
    rewrite generateValue_struct. intros H.
    by destruct (generateStructValue_not_nil (VStruct p n ms fields) false
                   omitType eq_refl H).
Qed.

Lemma generateStructValue_omitType (v : Value) (pr : bool) (s : Statement) :
  generateStructValue json_Marshal v pr true = Returns (Some s) ->
  exists ts : Statement,
    generateStructValue json_Marshal v pr false = Returns (Some (ts ++ s)).
Proof.
  unfold generateStructValue, generateStructValue_.
  destruct v; try discriminate.
  destruct (if HasUnexportedField _ then _ else _).
  - intros H. exists []. exact H.
  - destruct (structDict _ _ _); simpl; [|discriminate].
    intros H. injection H as <-. eexists. reflexivity.
Qed.

(** X3: [omitType] only ever drops a leading type.  Whatever the value,
    the expression compiled with [omitType] set is the expression compiled
    without it, less a prefix (the written type of a slice, an array, a map
    or a record compiled field by field; nothing otherwise): the elements,
    entries and fields inside the braces are the same. *)
Theorem X3_omitType_drops_a_prefix (v : Value) (s : Statement) :
  generateValue json_Marshal v true = Returns (Some s) ->
  exists ts : Statement,
    generateValue json_Marshal v false = Returns (Some (ts ++ s)).
Proof.
  destruct v as [p n b|k p n i|k p n u|k p n bits|k p n re im|p n s0|p n a
                 |t|e|t|t l|t l|kt t|kt t l|t b|b|p n b|p n ms fields];
    try (intros H; exists []; exact H); try discriminate.
  - rewrite !generateValue_ptr, !generatePtrValue_nonnil.
    destruct (IsLiteralType (TypeOf e)); [intros H; exists []; exact H|].
    destruct (Kind_eqb (Kind_of (TypeOf e)) reflect.Struct);
      [apply generateStructValue_omitType | intros H; exists []; exact H].
  - simpl. intros H. injection H as <-. by eexists [_; _].
  - simpl. destruct (valuesItems _ l); simpl; [|discriminate].
    intros H. injection H as <-. by eexists [_; _].
  - simpl. destruct (valuesItems _ l); simpl; [|discriminate].
    intros H. injection H as <-. by eexists [_; _].
  - simpl. intros H. injection H as <-. by eexists [_; _].
  - simpl. destruct (mapDict _ l []); simpl; [|discriminate].
    intros H. injection H as <-. by eexists [_; _].
  - rewrite !generateValue_struct. apply generateStructValue_omitType.
Qed.

Lemma printed_Dict_set (d : Entries) (k x : option Statement) :
  printed (Dict_set d k x) = printed d ++ printed [(k, x)].
Proof.
  destruct k as [k|]; unfold Dict_set; rewrite printed_app; [reflexivity|].
  f_equal. unfold printed.
  induction d as [|[[a|] b] d IH]; simpl; [reflexivity| |exact IH].
  destruct b; simpl; by rewrite IH.
Qed.

Lemma mapDict_printed (entries : list (Value * Value)) (d0 d : Entries) :
  mapDict (generateValue json_Marshal) entries d0 = Returns d ->
  printed d
  = printed d0 ++
    flat_map
      (fun kv =>
         match generateValue json_Marshal (fst kv) false,
               generateValue json_Marshal (snd kv) true with
         | Returns (Some k), Returns (Some e) => [(Some k, Some e)]
         | _, _ => []
         end)
      entries.
Proof.
  revert d0. induction entries as [|[kv vv] rest IH]; intros d0; simpl.
  - intros H. injection H as <-. by rewrite app_nil_r.
  - destruct (generateValue json_Marshal kv false) as [k|]; simpl;
      [|discriminate].
    destruct (generateValue json_Marshal vv true) as [x|]; simpl;
      [|discriminate].
    intros H. rewrite (IH _ H), printed_Dict_set, <- app_assoc.
    by destruct k, x.
Qed.

(** X4: the entries printed for a map.  When a non-nil map compiles, its
    literal prints [k: e] exactly for the entries whose key compiles to
    the expression [k], with its type written, and whose value compiles to
    the expression [e], with its type omitted; an entry whose key or value
    is of a skipped kind is not printed. *)
Theorem X4_map_entries (kt t : Type_) (entries : list (Value * Value))
  (omitType : bool) (s : Statement) :
  generateValue json_Marshal (VMap kt t entries) omitType = Returns (Some s) ->
  forall k e : Statement,
    has_entry s k e
    <-> exists kv, In kv entries
                   /\ generateValue json_Marshal (fst kv) false
                      = Returns (Some k)
                   /\ generateValue json_Marshal (snd kv) true
                      = Returns (Some e).
Proof.
  intros Hs k e.
  assert (Hd : exists (ts : Statement) (d : Entries),
             mapDict (generateValue json_Marshal) entries [] = Returns d
             /\ s = ts ++ [Grp Values [Dict d]]).
  { simpl in Hs.
    destruct (mapDict (generateValue json_Marshal) entries []) as [d|];
      simpl in Hs; [|discriminate].
    destruct omitType; injection Hs as <-.
    - by exists [], d.
    - by eexists [_; _], d. }
  destruct Hd as (ts & d & Hd & ->).
  apply mapDict_printed in Hd. simpl in Hd.
  unfold has_entry. split.
  - intros (ts' & d' & Heq & Hin).
    apply app_inj_tail in Heq as [_ Heq]. injection Heq as <-.
    rewrite Hd in Hin. apply in_flat_map in Hin as [kv [Hkv Hin]].
    exists kv. split; [exact Hkv|].
    destruct (generateValue json_Marshal (fst kv) false) as [[k'|]|];
      try destruct Hin.
    destruct (generateValue json_Marshal (snd kv) true) as [[e'|]|];
      try destruct Hin.
    + by injection H as <- <-.
    + destruct H.
  - intros (kv & Hkv & Hk & He).
    exists ts, d. split; [reflexivity|].
    rewrite Hd. apply in_flat_map. exists kv. split; [exact Hkv|].
    rewrite Hk, He. by left.
Qed.

Lemma generateBuiltinLiteralValue_inj (v v' : Value) :
  well_formed_scalar v = true ->
  well_formed_scalar v' = true ->
  PkgPath (TypeOf v) = PkgPath (TypeOf v') ->
  Name (TypeOf v) = Name (TypeOf v') ->
  generateBuiltinLiteralValue v = generateBuiltinLiteralValue v' ->
  v = v'.
Proof.
  unfold well_formed_scalar.
  intros Hv Hv' Hp Hn Hl.
  apply andb_prop in Hv as [Hv Hr]. apply andb_prop in Hv as [Hlit _].
  apply andb_prop in Hv' as [Hv' Hr']. apply andb_prop in Hv' as [Hlit' _].
  rewrite (generateBuiltinLiteralValue_denotes v Hlit Hr),
    (generateBuiltinLiteralValue_denotes v' Hlit' Hr') in Hl.
  injection Hl as Hl.
  destruct v as [p n b|k p n i|k p n u|k p n bits|k p n re im|p n s|p n a
                 |t|e|t|t l|t l|kt t|kt t l|t b|b|p n b|p n ms fields];
    try discriminate Hlit;
    destruct v' as [p' n' b'|k' p' n' i'|k' p' n' u'|k' p' n' bits'
                    |k' p' n' re' im'|p' n' s'|p' n' a'
                    |t'|e'|t'|t' l'|t' l'|kt' t'|kt' t' l'|t' b'|b'|p' n' b'
                    |p' n' ms' fields'];
    try discriminate Hlit'; try discriminate Hl;
    simpl in Hp, Hn, Hl; congruence.
Qed.

(** X5: distinct scalars compile to distinct expressions.  Among the
    scalars [reflect] can hold (integers in the range of their kind,
    predeclared types named after their kind), the compiled expression
    determines the value, its kind and its type: no conversion written by
    [generateBuiltinLiteralValue] loses a bit. *)
Theorem X5_scalars_compile_injectively (v v' : Value) (o o' : bool) :
  well_formed_scalar v = true ->
  well_formed_scalar v' = true ->
  generateValue json_Marshal v o = generateValue json_Marshal v' o' ->
  v = v'.
Proof.
  intros Hv Hv' Heq.
  pose proof Hv as Hw. pose proof Hv' as Hw'.
  unfold well_formed_scalar in Hv, Hv'.
  apply andb_prop in Hv as [Hv _]. apply andb_prop in Hv as [Hlit Hn].
  apply andb_prop in Hv' as [Hv' _]. apply andb_prop in Hv' as [Hlit' Hn'].
  assert (Hg : forall x b, IsLiteralType (TypeOf x) = true ->
                 generateValue json_Marshal x b
                 = Returns (generateLiteralValue x)).
  { intros x b Hx. destruct x; simpl in Hx; try discriminate; reflexivity. }
  rewrite (Hg v o Hlit), (Hg v' o' Hlit') in Heq.
  injection Heq as Heq. unfold generateLiteralValue in Heq.
  rewrite Hlit, Hlit' in Heq. simpl in Heq. unfold IsCustomType in Heq.
  assert (Hone : forall x, exists l, generateBuiltinLiteralValue x = [Tok (Lit l)]).
  { intros x. unfold generateBuiltinLiteralValue. eauto. }
  destruct (Hone v) as [l Hl], (Hone v') as [l' Hl'].
  destruct (String.eqb (PkgPath (TypeOf v)) "") eqn:Hp;
    destruct (String.eqb (PkgPath (TypeOf v')) "") eqn:Hp'; simpl in Heq.
  - assert (Hb : generateBuiltinLiteralValue v
                 = generateBuiltinLiteralValue v') by congruence.
    apply String.eqb_eq in Hp, Hp', Hn, Hn'.
    assert (Hk : Kind_of (TypeOf v) = Kind_of (TypeOf v')).
    { clear -Hb Hlit Hlit'.
      unfold generateBuiltinLiteralValue in Hb.
      destruct v as [? ? b| k ? ? ?| k ? ? ?| k ? ? ?| | | | | | | | | | | | | |];
        try discriminate Hlit; try destruct k; try destruct b;
        destruct v' as [? ? b'| k' ? ? ?| k' ? ? ?| k' ? ? ?| | | | | | | | | | | | | |];
        try discriminate Hlit'; try destruct k'; try destruct b';
        try discriminate Hb; reflexivity. }
    apply generateBuiltinLiteralValue_inj; try done; congruence.
  - rewrite Hl in Heq. discriminate.
  - rewrite Hl' in Heq. discriminate.
  - assert (Hq : PkgPath (TypeOf v) = PkgPath (TypeOf v')
                 /\ Name (TypeOf v) = Name (TypeOf v')
                 /\ generateBuiltinLiteralValue v
                    = generateBuiltinLiteralValue v').
    { repeat split; congruence. }
    destruct Hq as (Hq1 & Hq2 & Hq3).
    by apply generateBuiltinLiteralValue_inj.
Qed.

End CompilerCoverage.

(** X6: [Capitalize] is idempotent, and what it returns never starts with
    a lowercase ASCII letter: the constructor functions [New<Kind>CRD] are
    named after the capitalized kind. *)
Theorem X6_Capitalize_idempotent (str : string) :
  Capitalize (Capitalize str) = Capitalize str
  /\ forall c rest,
       Capitalize str = String.String c rest ->
       ~ (97 <= nat_of_ascii c <= 122).
Proof.
  unfold Capitalize. destruct str as [|c0 rest0]; [split; [done|discriminate]|].
  cbv zeta.
  destruct ((97 <=? nat_of_ascii c0)%nat && (nat_of_ascii c0 <=? 122)%nat)
    eqn:Hc.
  - apply andb_prop in Hc as [H1 H2].
    apply Nat.leb_le in H1, H2.
    assert (Hn : nat_of_ascii (ascii_of_nat (nat_of_ascii c0 - 32))
                 = nat_of_ascii c0 - 32).
    { apply nat_ascii_embedding. lia. }
    assert (Hu : (97 <=? nat_of_ascii c0 - 32)%nat = false).
    { apply Nat.leb_gt. lia. }
    split.
    + by rewrite Hn, Hu.
    + intros c rest H. injection H as <- <-. rewrite Hn. lia.
  - split; [by rewrite Hc|].
    intros c rest H. injection H as <- <-. intros [H1 H2].
    apply Nat.leb_le in H1, H2. by rewrite H1, H2 in Hc.
Qed.

(* ===================================================================== *)
(** ** More on the generator *)
(* ===================================================================== *)

Section GeneratorCoverage.

Variable w : World.

Lemma discipline_app (cur : option (string * bool)) (a b : list Event) :
  discipline cur a = true -> discipline cur (a ++ b) = discipline None b.
Proof.
  revert cur. induction a as [|e a IH]; intros cur H.
  - destruct cur; [discriminate|reflexivity].
  - destruct e as [f|f file|f]; destruct cur as [[f' [|]]|]; simpl in *;
      try discriminate; try (apply andb_prop in H as [-> H]; simpl);
      by apply IH.
Qed.

Lemma writeFile_discipline (filename : string) (f : File) :
  discipline None (fst (writeFile w filename f)) = true.
Proof.
  unfold writeFile. destruct (Open w filename); [reflexivity|].
  destruct (Render w f); simpl; by rewrite !String.eqb_refl.
Qed.

Lemma GenerateGroup_discipline (cw : codeWriter)
  (group dirName goPackageName : string) :
  discipline None (fst (GenerateGroup w cw group dirName goPackageName)) = true.
Proof.
  unfold GenerateGroup. destruct (GenerateGroup_file _ _ _ _); [|reflexivity].
  apply writeFile_discipline.
Qed.

Lemma Generate_group_discipline (g : Generator) (cw : codeWriter)
  (group : string) :
  discipline None (fst (Generate_group w g cw group)) = true.
Proof.
  rewrite Generate_group_parts. cbv zeta.
  assert (H1 : let install :=
                 if GenInstall g
                 then GenerateGroupInstall w cw group
                        (snd (packageOf w cw group))
                 else ([], Returns None) in
               discipline None (fst install) = true).
  { destruct (GenInstall g); [apply writeFile_discipline|reflexivity]. }
  assert (H2 : let crds :=
                 if GenCRD g
                 then GenerateGroup w cw group (snd (packageOf w cw group))
                        (fst (packageOf w cw group))
                 else ([], Returns None) in
               discipline None (fst crds) = true).
  { destruct (GenCRD g); [apply GenerateGroup_discipline|reflexivity]. }
  cbv zeta in H1, H2.
  destruct (if GenInstall g
            then GenerateGroupInstall w cw group (snd (packageOf w cw group))
            else ([], Returns None)) as [ev1 [[e|]|]]; cbn [fst snd] in *;
    try exact H1.
  by rewrite (discipline_app _ _ _ H1).
Qed.

Lemma Generate_groups_discipline (g : Generator) (cw : codeWriter)
  (metav1Pkg : Package) (groups : list string) :
  discipline None (fst (Generate_groups w g cw metav1Pkg groups)) = true.
Proof.
  induction groups as [|group rest IH]; simpl.
  - destruct (GenInstall g); [apply writeFile_discipline|reflexivity].
  - pose proof (Generate_group_discipline g cw group) as H.
    destruct (Generate_group w g cw group) as [ev [r|]]; [exact H|].
    destruct (Generate_groups w g cw metav1Pkg rest) as [ev' r].
    cbn [fst] in *. by rewrite (discipline_app _ _ _ H).
Qed.

(** X7: whatever the files, the definitions and the way it ends (nil, an
    error or a panic), [Generate] keeps the discipline of its output
    files: it has at most one file open at a time, renders into a file at
    most once and only while it is open, and leaves no file open, also
    when rendering fails. *)
Theorem X7_Generate_closes_what_it_opens (g : Generator) :
  discipline None (fst (Generate w g)) = true.
Proof.
  unfold Generate.
  destruct (if negb (String.eqb (HeaderFile g) "") then _ else _);
    [|reflexivity].
  destruct (FindMetav1 w); [|reflexivity].
  destruct (length _ =? 0)%nat; [reflexivity|].
  apply Generate_groups_discipline.
Qed.

Lemma writeFile_error (filename : string) (f : File) (err : error) :
  snd (writeFile w filename f) = Returns (Some err) ->
  Open w filename = Some err \/ Render w f = Some err.
Proof.
  unfold writeFile. destruct (Open w filename) as [e|].
  - intros H. injection H as ->. by left.
  - destruct (Render w f) as [e|]; [|discriminate].
    intros H. injection H as ->. by right.
Qed.

Lemma writeFile_never_panics (filename : string) (f : File) :
  snd (writeFile w filename f) <> Panics.
Proof.
  unfold writeFile. destruct (Open w filename); [discriminate|].
  destruct (Render w f); discriminate.
Qed.

Lemma Generate_group_error (g : Generator) (cw : codeWriter) (group : string)
  (err : error) :
  snd (Generate_group w g cw group) = Some (Returns (Some err)) ->
  (exists filename, Open w filename = Some err)
  \/ (exists f, Render w f = Some err).
Proof.
  rewrite Generate_group_parts. cbv zeta.
  destruct (GenInstall g); cbn [fst snd].
  - destruct (snd (GenerateGroupInstall w cw group _)) as [[e|]|] eqn:Hi;
      cbn [snd]; [| |discriminate].
    + intros H. injection H as ->.
      apply writeFile_error in Hi as [Hi|Hi]; eauto.
    + destruct (GenCRD g); cbn [snd]; [|discriminate].
      unfold GenerateGroup.
      destruct (GenerateGroup_file _ _ _ _) as [f|]; cbn [snd];
        [|discriminate].
      destruct (snd (writeFile w _ f)) as [[e|]|] eqn:Hc; [| |discriminate];
        [|discriminate].
      intros H. injection H as ->.
      apply writeFile_error in Hc as [Hc|Hc]; eauto.
  - destruct (GenCRD g); cbn [snd]; [|discriminate].
    unfold GenerateGroup.
    destruct (GenerateGroup_file _ _ _ _) as [f|]; cbn [snd]; [|discriminate].
    destruct (snd (writeFile w _ f)) as [[e|]|] eqn:Hc; [| |discriminate];
      [|discriminate].
    intros H. injection H as ->.
    apply writeFile_error in Hc as [Hc|Hc]; eauto.
Qed.

Lemma Generate_groups_error (g : Generator) (cw : codeWriter)
  (metav1Pkg : Package) (groups : list string) (err : error) :
  snd (Generate_groups w g cw metav1Pkg groups) = Returns (Some err) ->
  (exists filename, Open w filename = Some err)
  \/ (exists f, Render w f = Some err).
Proof.
  induction groups as [|group rest IH]; simpl.
  - destruct (GenInstall g); [|discriminate].
    intros H. apply writeFile_error in H as [H|H]; eauto.
  - pose proof (Generate_group_error g cw group err) as Hg.
    destruct (Generate_group w g cw group) as [ev [r|]]; cbn [snd] in *.
    + intros ->. by apply Hg.
    + destruct (Generate_groups w g cw metav1Pkg rest) as [ev' r].
      exact IH.
Qed.

(** X8: the only errors [Generate] returns are the error of reading the
    header file, the error of opening an output file and the error of
    rendering a file: neither the parsing collaborators, nor the value
    compiler, nor a failing serialization make it return an error. *)
Theorem X8_Generate_errors (g : Generator) (err : error) :
  snd (Generate w g) = Returns (Some err) ->
  (HeaderFile g <> "" /\ ReadFile w (HeaderFile g) = inr err)
  \/ (exists filename, Open w filename = Some err)
  \/ (exists f, Render w f = Some err).
Proof.
  unfold Generate.
  destruct (negb (String.eqb (HeaderFile g) "")) eqn:Hh.
  - destruct (ReadFile w (HeaderFile g)) as [text|e] eqn:Hr.
    + destruct (FindMetav1 w); [|discriminate].
      destruct (length _ =? 0)%nat; [discriminate|].
      intros H. right. by apply Generate_groups_error in H.
    + intros H. injection H as ->. left. split; [|reflexivity].
      apply negb_true_iff, String.eqb_neq in Hh. exact Hh.
  - destruct (FindMetav1 w); [|discriminate].
    destruct (length _ =? 0)%nat; [discriminate|].
    intros H. right. by apply Generate_groups_error in H.
Qed.


Lemma GenerateGroup_loop_panics
  (crds : list (GroupKind * CustomResourceDefinition)) (group : string)
  (f0 : File) (l0 : list Code) :
  panics (GenerateGroup_loop w crds group f0 l0)
  = existsb (fun e => String.eqb (Group (fst e)) group
                      && reaches_nil (ValueOf (snd e))) crds.
Proof.
  revert f0 l0. induction crds as [|[gk crd] rest IH]; intros f0 l0;
    [reflexivity|].
  cbn [GenerateGroup_loop existsb fst snd].
  destruct (String.eqb (Group gk) group); cbn [negb andb orb]; [|apply IH].
  pose proof (generateValue_panics_reaches_nil (Marshal w)
                (VPtr (ValueOf crd)) false) as Hp.
  unfold GenerateValue.
  destruct (generateValue (Marshal w) (VPtr (ValueOf crd)) false) as [value|];
    cbn [bind panics] in *.
  - change (reaches_nil (VPtr (ValueOf crd)))
      with (reaches_nil (ValueOf crd)) in Hp.
    rewrite <- Hp. apply IH.
  - change (reaches_nil (VPtr (ValueOf crd)))
      with (reaches_nil (ValueOf crd)) in Hp.
    by rewrite <- Hp.
Qed.

(** X9: [GenerateGroup] panics exactly when a definition of the group
    holds a nil pointer where the value compiler dereferences it;
    definitions of other groups play no part, and when it panics no file
    has been opened. *)
Theorem X9_GenerateGroup_panics (cw : codeWriter)
  (group dirName goPackageName : string) :
  panics (snd (GenerateGroup w cw group dirName goPackageName))
  = existsb (fun e => String.eqb (Group (fst e)) group
                      && reaches_nil (ValueOf (snd e)))
      (CustomResourceDefinitions (parser cw))
  /\ (panics (snd (GenerateGroup w cw group dirName goPackageName)) = true ->
      fst (GenerateGroup w cw group dirName goPackageName) = []).
Proof.
  assert (Hfile : panics (GenerateGroup_file w cw group goPackageName)
                  = existsb (fun e => String.eqb (Group (fst e)) group
                                      && reaches_nil (ValueOf (snd e)))
                      (CustomResourceDefinitions (parser cw))).
  { unfold GenerateGroup_file.
    rewrite <- (GenerateGroup_loop_panics _ group
                  (setFileDefault cw (NewFile goPackageName)) []).
    by destruct (GenerateGroup_loop w _ group _ []). }
  rewrite <- Hfile. unfold GenerateGroup.
  destruct (GenerateGroup_file w cw group goPackageName) as [f|];
    [|split; reflexivity].
  pose proof (writeFile_never_panics (Join w [dirName; "zz.generated.crd.go"]) f)
    as Hn.
  destruct (writeFile w _ f) as [ev [r|]]; cbn [fst snd panics] in *;
    [split; [reflexivity|discriminate] | done].
Qed.

Lemma GenerateGroup_loop_file
  (crds : list (GroupKind * CustomResourceDefinition)) (group : string)
  (f0 f : File) (l0 l : list Code) :
  GenerateGroup_loop w crds group f0 l0 = Returns (f, l) ->
  PackageName f = PackageName f0
  /\ HeaderComments f = HeaderComments f0
  /\ ImportAliases f = ImportAliases f0
  /\ Items f
     = Items f0 ++
       flat_map
         (fun e =>
            [Stmt (Some [Tok (Comment "//nolint")]);
             constructor (Kind (fst e))
               (match GenerateValue (Marshal w) (VPtr (ValueOf (snd e))) with
                | Returns value => value
                | Panics => None
                end);
             Stmt (Some [Tok Line])])
         (List.filter (fun e => String.eqb (Group (fst e)) group) crds).
Proof.
  revert f0 l0. induction crds as [|[gk crd] rest IH]; intros f0 l0 H.
  - simpl in H. injection H as <- <-. by rewrite app_nil_r.
  - cbn [GenerateGroup_loop List.filter fst snd] in *.
    destruct (String.eqb (Group gk) group); cbn [negb] in *;
      [|by apply (IH _ _ H)].
    destruct (GenerateValue (Marshal w) (VPtr (ValueOf crd))) as [value|]
      eqn:Hv; [|discriminate].
    cbn [bind] in H. apply IH in H as (-> & -> & -> & ->).
    repeat split. cbn [Add Items flat_map fst snd]. rewrite Hv.
    rewrite <- !app_assoc. reflexivity.
Qed.

Lemma setFileDefault_mk (cw : codeWriter) (n : string) (h : list string)
  (a : list (string * string)) (items : list Code) :
  setFileDefault cw (mkFile n h a items)
  = mkFile n (HeaderComments (setFileDefault cw (mkFile n h a [])))
      (ImportAliases (setFileDefault cw (mkFile n h a []))) items.
Proof. reflexivity. Qed.

Lemma setFileDefault_Items (cw : codeWriter) (f : File) :
  Items (setFileDefault cw f) = Items f.
Proof. reflexivity. Qed.

(** X13: the whole file of a group.  When [GenerateGroup] builds its
    file, the file has the given package name and the default header and
    aliases; it holds, for each definition of the group in the order
    [range] yields them, a [//nolint] comment, the constructor returning
    the compiled definition and a blank line, then a [//nolint] comment and
    the aggregator [NewCustomResourceDefinitions], which returns the calls
    of these constructors in the same order.  Definitions of other groups
    leave no trace in it. *)
Theorem X13_group_file (cw : codeWriter) (group goPackageName : string)
  (f : File) :
  GenerateGroup_file w cw group goPackageName = Returns f ->
  let defs :=
    List.filter (fun e => String.eqb (Group (fst e)) group)
      (CustomResourceDefinitions (parser cw)) in
  let slice :=
    [Grp Index []; Tok (Op "*");
     Tok (Qual apiextensionsv1 "CustomResourceDefinition")] in
  f = setFileDefault cw
        (mkFile goPackageName [] []
           (flat_map
              (fun e =>
                 [Stmt (Some [Tok (Comment "//nolint")]);
                  constructor (Kind (fst e))
                    (match GenerateValue (Marshal w) (VPtr (ValueOf (snd e))) with
                     | Returns value => value
                     | Panics => None
                     end);
                  Stmt (Some [Tok Line])])
              defs
            ++ [Stmt (Some [Tok (Comment "//nolint")]);
                Stmt (Some
                  [Tok (Keyword "func"); Tok (Id "NewCustomResourceDefinitions");
                   Grp Params []; Stmt (Some slice);
                   Grp Block
                     [Stmt (Some
                        [Grp Return
                           [Stmt (Some
                              (slice ++
                               [Grp Values
                                  (List.map
                                     (fun e =>
                                        Stmt (Some [Tok (Id (New_CRD (Kind (fst e))));
                                                    Grp Call []]))
                                     defs)]))]])]])]))
  /\ Forall (fun e => reaches_nil (ValueOf (snd e)) = false) defs.
Proof.
  intros H defs slice. split.
  - unfold GenerateGroup_file in H.
    destruct (GenerateGroup_loop w _ group _ []) as [[f1 l1]|] eqn:Hloop;
      [|discriminate].
    cbn [bind fst snd] in H. injection H as <-.
    pose proof (GenerateGroup_loop_calls w _ _ _ _ _ _ Hloop) as Hl.
    apply GenerateGroup_loop_file in Hloop as (Hn & Hh & Ha & Hi).
    rewrite setFileDefault_mk.
    destruct f1 as [n h a i].
    cbn [PackageName HeaderComments ImportAliases Items] in Hn, Hh, Ha, Hi.
    subst n h a i l1. unfold Add.
    cbn [PackageName HeaderComments ImportAliases Items].
    rewrite setFileDefault_Items. cbn [NewFile Items app].
    rewrite <- !app_assoc. reflexivity.
  - assert (Hp : panics (GenerateGroup_file w cw group goPackageName) = false)
      by (by rewrite H).
    unfold GenerateGroup_file in Hp.
    assert (Hq : panics (GenerateGroup_loop w
                           (CustomResourceDefinitions (parser cw)) group
                           (setFileDefault cw (NewFile goPackageName)) [])
                 = false).
    { by destruct (GenerateGroup_loop w _ group _ []). }
    rewrite GenerateGroup_loop_panics in Hq.
    apply Forall_forall. intros e He.
    apply list_elem_of_In, filter_In in He as [He Hg].
    destruct (reaches_nil (ValueOf (snd e))) eqn:Hr; [|reflexivity].
    assert (Hex : existsb (fun e => String.eqb (Group (fst e)) group
                                    && reaches_nil (ValueOf (snd e)))
                    (CustomResourceDefinitions (parser cw)) = true).
    { apply existsb_exists. exists e. by rewrite Hg, Hr. }
    by rewrite Hex in Hq.
Qed.

Lemma mentions_ReplaceAll_dot (s : string) :
  mentions "." (ReplaceAll s "." "") = false.
Proof.
  unfold ReplaceAll. cbn [String.eqb Ascii.eqb Bool.eqb].
  induction s as [|c s IH]; [reflexivity|].
  cbn [ReplaceAll_from String.prefix String.length Nat.sub].
  destruct (ascii_dec "." c) as [<-|Hc]; cbn [String.append].
  - replace (String.prefix "" s) with true by (by destruct s). exact IH.
  - cbn [mentions]. rewrite IH, orb_false_r. by apply Ascii.eqb_neq.
Qed.

Lemma ReplaceAll_dot_id (s : string) :
  mentions "." s = false -> ReplaceAll s "." "" = s.
Proof.
  unfold ReplaceAll. cbn [String.eqb Ascii.eqb Bool.eqb].
  induction s as [|c s IH]; [reflexivity|].
  cbn [mentions]. intros H. apply orb_false_elim in H as [Hc Hs].
  cbn [ReplaceAll_from String.prefix].
  destruct (ascii_dec "." c) as [<-|_]; [discriminate Hc|].
  by rewrite IH.
Qed.

Lemma mentions_Split_dot_first (s : string) :
  mentions "." (Split_dot_first s) = false.
Proof.
  induction s as [|c s IH]; [reflexivity|]. cbn [Split_dot_first].
  destruct (Ascii.eqb c ".") eqn:Hc; [reflexivity|].
  cbn [mentions]. rewrite IH, orb_false_r.
  rewrite Ascii.eqb_sym. exact Hc.
Qed.

(** X11: the package name [Generate] chooses for a group never contains
    a dot, and it is the directory name with its dots removed, whether the
    names come from a parsed package of the group or from the first part
    of the group name. *)
Theorem X11_package_name_has_no_dot (cw : codeWriter) (group : string) :
  mentions "." (fst (packageOf w cw group)) = false
  /\ fst (packageOf w cw group)
     = ReplaceAll (snd (packageOf w cw group)) "." "".
Proof.
  unfold packageOf.
  destruct (List.find _ (GroupVersions (parser cw))) as [[pkg gv]|].
  - destruct (String.eqb (ReplaceAll (Base w (Dir w pkg)) "." "") "");
      cbn [fst snd].
    + split; [apply mentions_Split_dot_first|].
      symmetry. apply ReplaceAll_dot_id, mentions_Split_dot_first.
    + split; [apply mentions_ReplaceAll_dot | reflexivity].
  - cbn [String.eqb fst snd].
    split; [apply mentions_Split_dot_first|].
    symmetry. apply ReplaceAll_dot_id, mentions_Split_dot_first.
Qed.


Lemma Ascii_compare_refl (c : ascii) : Ascii.compare c c = Eq.
Proof. unfold Ascii.compare. apply N.compare_refl. Qed.

Lemma String_compare_trans_le (a b c : string) :
  String.compare a b <> Gt -> String.compare b c <> Gt ->
  String.compare a c <> Gt.
Proof.
  revert b c. induction a as [|x a IH]; intros [|y b] [|z c]; simpl;
    try congruence.
  unfold Ascii.compare.
  destruct (N.compare_spec (N_of_ascii x) (N_of_ascii y)) as [Hxy|Hxy|Hxy];
    destruct (N.compare_spec (N_of_ascii y) (N_of_ascii z)) as [Hyz|Hyz|Hyz];
    try congruence; intros H1 H2.
  - rewrite Hxy, Hyz, N.compare_refl. by apply (IH b c).
  - rewrite Hxy. by apply N.compare_lt_iff in Hyz as ->.
  - rewrite <- Hyz. by apply N.compare_lt_iff in Hxy as ->.
  - assert (Hxz : (N_of_ascii x < N_of_ascii z)%N) by lia.
    by apply N.compare_lt_iff in Hxz as ->.
Qed.

Lemma String_leb_trans (a b c : string) :
  String.leb a b = true -> String.leb b c = true -> String.leb a c = true.
Proof.
  unfold String.leb. intros H1 H2.
  pose proof (String_compare_trans_le a b c) as H.
  destruct (String.compare a b); try discriminate;
    destruct (String.compare b c); try discriminate;
    destruct (String.compare a c); try reflexivity;
    exfalso; by apply H.
Qed.

Lemma String_leb_refl (a : string) : String.leb a a = true.
Proof. destruct (String.leb_total a a); assumption. Qed.

Lemma insert_sorted_Permutation (x : string) (l : list string) :
  Permutation (insert_sorted x l) (x :: l).
Proof.
  induction l as [|y l IH]; simpl; [reflexivity|].
  destruct (String.leb x y); [reflexivity|].
  rewrite IH. apply perm_swap.
Qed.

Lemma sort_Strings_Permutation (l : list string) :
  Permutation (sort_Strings l) l.
Proof.
  induction l as [|x l IH]; simpl; [reflexivity|].
  rewrite insert_sorted_Permutation. by constructor.
Qed.

Lemma forallb_Permutation {A : Type} (p : A -> bool) (l l' : list A) :
  Permutation l l' -> forallb p l = forallb p l'.
Proof.
  induction 1; simpl; try congruence.
  by rewrite !andb_assoc, (andb_comm (p y)).
Qed.

Lemma insert_sorted_sorted (x : string) (l : list string) :
  sorted l = true -> sorted (insert_sorted x l) = true.
Proof.
  induction l as [|y l IH]; [reflexivity|].
  cbn [sorted insert_sorted]. intros H. apply andb_prop in H as [Hy Hl].
  destruct (String.leb x y) eqn:Hxy.
  - cbn [sorted forallb]. rewrite Hxy, Hy, Hl. cbn [andb].
    rewrite andb_true_r. apply forallb_forall. intros z Hz.
    rewrite forallb_forall in Hy. eapply String_leb_trans; eauto.
  - cbn [sorted]. rewrite (IH Hl), andb_true_r.
    rewrite (forallb_Permutation _ _ _ (insert_sorted_Permutation x l)).
    cbn [forallb]. rewrite Hy, andb_true_r.
    destruct (String.leb_total x y) as [H|H]; [congruence|exact H].
Qed.

Lemma sort_Strings_sorted (l : list string) : sorted (sort_Strings l) = true.
Proof.
  induction l as [|x l IH]; [reflexivity|]. by apply insert_sorted_sorted.
Qed.

Lemma sorted_Permutation_eq (l l' : list string) :
  sorted l = true -> sorted l' = true -> Permutation l l' -> l = l'.
Proof.
  revert l'. induction l as [|x l IH]; intros l' Hl Hl' Hp.
  - apply Permutation_nil in Hp. by subst.
  - destruct l' as [|y l'];
      [symmetry in Hp; by apply Permutation_nil in Hp|].
    cbn [sorted] in Hl, Hl'.
    apply andb_prop in Hl as [Hx Hl]. apply andb_prop in Hl' as [Hy Hl'].
    rewrite forallb_forall in Hx, Hy.
    assert (Hxy : x = y).
    { assert (H1 : In y (x :: l)).
      { apply (Permutation_in y (Permutation_sym Hp)). by left. }
      assert (H2 : In x (y :: l')).
      { apply (Permutation_in x Hp). by left. }
      destruct H1 as [H1|H1]; [done|]. destruct H2 as [H2|H2]; [done|].
      apply String.leb_antisym; auto. }
    subst y. f_equal. apply IH; try done.
    by apply Permutation_cons_inv in Hp.
Qed.

Lemma sort_Strings_order (l l' : list string) :
  Permutation l l' -> sort_Strings l = sort_Strings l'.
Proof.
  intros Hp. apply sorted_Permutation_eq; try apply sort_Strings_sorted.
  rewrite !sort_Strings_Permutation. exact Hp.
Qed.

Lemma List_filter_Permutation {A : Type} (p : A -> bool) (l l' : list A) :
  Permutation l l' -> Permutation (List.filter p l) (List.filter p l').
Proof.
  induction 1; simpl.
  - reflexivity.
  - destruct (p x); [by constructor | done].
  - destruct (p x), (p y); try reflexivity. apply perm_swap.
  - etransitivity; eauto.
Qed.

(** X10: the install files do not depend on the order in which [range]
    yields the parsed packages.  [GenerateScheme] and
    [GenerateGroupInstall] sort the package paths they collect, so that
    two orders of the same packages give the same file, with the same
    calls and the same import aliases, whatever the files do: the order
    that [GenerateGroup] follows plays no part here. *)
Theorem X10_install_files_ignore_range_order (text : string)
  (crds : list (GroupKind * CustomResourceDefinition))
  (gvs gvs' : list (Package * GroupVersion))
  (metav1Pkg : Package) (group dirName : string) :
  Permutation gvs gvs' ->
  GenerateScheme w (mkCodeWriter text (mkParser crds gvs)) metav1Pkg
  = GenerateScheme w (mkCodeWriter text (mkParser crds gvs')) metav1Pkg
  /\ GenerateGroupInstall w (mkCodeWriter text (mkParser crds gvs))
       group dirName
     = GenerateGroupInstall w (mkCodeWriter text (mkParser crds gvs'))
         group dirName.
Proof.
  intros Hp. unfold GenerateScheme, GenerateGroupInstall.
  cbn [parser GroupVersions].
  rewrite (sort_Strings_order
             (List.map (fun e => NonVendorPath w (fst e))
                (List.filter (fun e => negb (String.eqb (fst e) metav1Pkg)) gvs))
             (List.map (fun e => NonVendorPath w (fst e))
                (List.filter (fun e => negb (String.eqb (fst e) metav1Pkg)) gvs')))
    by (by apply Permutation_map, List_filter_Permutation).
  rewrite (sort_Strings_order
             (List.map (fun e => NonVendorPath w (fst e))
                (List.filter (fun e => String.eqb (gvGroup (snd e)) group) gvs))
             (List.map (fun e => NonVendorPath w (fst e))
                (List.filter (fun e => String.eqb (gvGroup (snd e)) group) gvs')))
    by (by apply Permutation_map, List_filter_Permutation).
  split; reflexivity.
Qed.

Lemma writeFile_success (filename : string) (f : File) :
  snd (writeFile w filename f) = Returns None ->
  written (fst (writeFile w filename f)) = [filename].
Proof.
  unfold writeFile. destruct (Open w filename); [discriminate|].
  destruct (Render w f); [discriminate|reflexivity].
Qed.

Lemma written_app (a b : list Event) : written (a ++ b) = written a ++ written b.
Proof. unfold written. apply flat_map_app. Qed.

Lemma Generate_group_written (g : Generator) (cw : codeWriter)
  (group : string) :
  snd (Generate_group w g cw group) = None ->
  written (fst (Generate_group w g cw group))
  = (if GenInstall g
     then [Join w [snd (packageOf w cw group); "install";
                   "zz.generated.install.go"]]
     else [])
    ++ (if GenCRD g
        then [Join w [snd (packageOf w cw group); "zz.generated.crd.go"]]
        else []).
Proof.
  rewrite Generate_group_parts. cbv zeta.
  assert (H1 : let install :=
                 if GenInstall g
                 then GenerateGroupInstall w cw group
                        (snd (packageOf w cw group))
                 else ([], Returns None) in
               snd install = Returns None ->
               written (fst install)
               = if GenInstall g
                 then [Join w [snd (packageOf w cw group); "install";
                               "zz.generated.install.go"]]
                 else []).
  { destruct (GenInstall g); [apply writeFile_success|reflexivity]. }
  assert (H2 : let crds :=
                 if GenCRD g
                 then GenerateGroup w cw group (snd (packageOf w cw group))
                        (fst (packageOf w cw group))
                 else ([], Returns None) in
               snd crds = Returns None ->
               written (fst crds)
               = if GenCRD g
                 then [Join w [snd (packageOf w cw group);
                               "zz.generated.crd.go"]]
                 else []).
  { destruct (GenCRD g); [|reflexivity]. unfold GenerateGroup.
    destruct (GenerateGroup_file _ _ _ _); [apply writeFile_success|].
    discriminate. }
  cbv zeta in H1, H2.
  destruct (if GenInstall g
            then GenerateGroupInstall w cw group (snd (packageOf w cw group))
            else ([], Returns None)) as [ev1 [[e|]|]]; cbn [fst snd] in *;
    try discriminate.
  destruct (if GenCRD g
            then GenerateGroup w cw group (snd (packageOf w cw group))
                   (fst (packageOf w cw group))
            else ([], Returns None)) as [ev2 [[e|]|]]; cbn [fst snd] in *;
    try discriminate.
  intros _. by rewrite written_app, H1, H2.
Qed.

Lemma Generate_groups_written (g : Generator) (cw : codeWriter)
  (metav1Pkg : Package) (groups : list string) :
  snd (Generate_groups w g cw metav1Pkg groups) = Returns None ->
  written (fst (Generate_groups w g cw metav1Pkg groups))
  = flat_map
      (fun group =>
         (if GenInstall g
          then [Join w [snd (packageOf w cw group); "install";
                        "zz.generated.install.go"]]
          else [])
         ++ (if GenCRD g
             then [Join w [snd (packageOf w cw group); "zz.generated.crd.go"]]
             else []))
      groups
    ++ (if GenInstall g then ["install/zz.generated.scheme.go"] else []).
Proof.
  induction groups as [|group rest IH]; cbn [Generate_groups flat_map].
  - destruct (GenInstall g); [apply writeFile_success|reflexivity].
  - pose proof (Generate_group_written g cw group) as Hg.
    destruct (Generate_group w g cw group) as [ev [r|]] eqn:Hgg;
      cbn [fst snd] in *.
    + intros ->. destruct (Generate_group_not_nil w g cw group).
      by rewrite Hgg.
    + destruct (Generate_groups w g cw metav1Pkg rest) as [ev' r'].
      cbn [fst snd] in *. intros H.
      by rewrite written_app, (Hg eq_refl), (IH H), !app_assoc.
Qed.


Lemma flat_map_map {A B C : Type} (f : A -> B) (h : B -> list C) (l : list A) :
  flat_map h (List.map f l) = flat_map (fun x => h (f x)) l.
Proof. induction l as [|x l IH]; simpl; [reflexivity|]. by rewrite IH. Qed.

(** X12: the files a successful run renders.  When [Generate] goes past
    its early returns and ends with nil, it has rendered, for each kind
    found and in the order [range] yields the kinds, the install file
    and then the definitions file of the group of that kind (each one only
    if the generator is asked for it), and at last the scheme file: the
    loop runs once for each kind, not once for each group, so that the
    files of a group with several kinds are rendered once for each of its
    kinds. *)
Theorem X12_files_of_a_successful_run (g : Generator) (metav1Pkg : Package) :
  FindMetav1 w = Some metav1Pkg ->
  let parser0 :=
    newParser w (match AllowDangerousTypes g with
                 | Some b => b
                 | None => false
                 end) in
  let kubeKinds := FindKubeKinds w parser0 metav1Pkg in
  let parsed :=
    fold_left (fun p groupKind => NeedCRDFor w p groupKind (MaxDescLen g))
      kubeKinds parser0 in
  kubeKinds <> [] ->
  snd (Generate w g) = Returns None ->
  written (fst (Generate w g))
  = flat_map
      (fun gk =>
         let dirName :=
           snd (packageOf w (mkCodeWriter "" parsed) (Group gk)) in
         (if GenInstall g
          then [Join w [dirName; "install"; "zz.generated.install.go"]]
          else [])
         ++ (if GenCRD g
             then [Join w [dirName; "zz.generated.crd.go"]]
             else []))
      kubeKinds
    ++ (if GenInstall g then ["install/zz.generated.scheme.go"] else []).
Proof.
  intros Hmeta parser0 kubeKinds parsed Hne Hnil.
  destruct (if negb (String.eqb (HeaderFile g) "")
            then ReadFile w (HeaderFile g) else inl "") as [text|err] eqn:Hh.
  - pose proof (Generate_protects_first w g text metav1Pkg Hh Hmeta Hne) as Heq.
    cbv zeta in Heq. fold parser0 in Heq. fold kubeKinds in Heq.
    fold parsed in Heq. rewrite Heq in Hnil |- *.
    rewrite (Generate_groups_written _ _ _ _ Hnil), flat_map_map.
    reflexivity.
  - unfold Generate in Hnil. rewrite Hh in Hnil. discriminate.
Qed.

End GeneratorCoverage.

(** X8 on a header file that cannot be read. *)
Lemma X8_witness :
  snd (Generate (world (inr (Error "no such file")) None [] [])
         (mkGenerator None None "hack/boilerplate.go.txt" "" true true))
  = Returns (Some (Error "no such file"))
  /\ ("hack/boilerplate.go.txt" <> ""
      /\ ReadFile (world (inr (Error "no such file")) None [] [])
           "hack/boilerplate.go.txt" = inr (Error "no such file")
      \/ (exists filename,
            Open (world (inr (Error "no such file")) None [] []) filename
            = Some (Error "no such file"))
      \/ (exists f,
            Render (world (inr (Error "no such file")) None [] []) f
            = Some (Error "no such file"))).
Proof.
  split; [reflexivity|].
  apply (X8_Generate_errors (world (inr (Error "no such file")) None [] [])
           (mkGenerator None None "hack/boilerplate.go.txt" "" true true)).
  reflexivity.
Defined.

(** X1 on the widget, whose nil [Note] is a zero field and is skipped. *)
Lemma X1_witness :
  Kind_of (TypeOf widget) = reflect.Struct
  /\ panics (generateStructValue marshal_fails widget true false) = false.
Proof.
  split; [reflexivity|].
  destruct (X1_panics_iff_reaches_nil marshal_fails widget true false)
    as (_ & _ & H).
  rewrite (H eq_refl). reflexivity.
Defined.

(** X10 on two orders of two packages of one group. *)
Lemma X10_witness :
  Permutation
    [("example.com/project/apis/example/v1", mkGroupVersion "example.com" "v1");
     ("example.com/project/apis/example/v2", mkGroupVersion "example.com" "v2")]
    [("example.com/project/apis/example/v2", mkGroupVersion "example.com" "v2");
     ("example.com/project/apis/example/v1", mkGroupVersion "example.com" "v1")]
  /\ GenerateScheme (world (inl "") (Some metav1) [] [])
       (mkCodeWriter ""
          (mkParser []
             [("example.com/project/apis/example/v1",
               mkGroupVersion "example.com" "v1");
              ("example.com/project/apis/example/v2",
               mkGroupVersion "example.com" "v2")])) metav1
     = GenerateScheme (world (inl "") (Some metav1) [] [])
         (mkCodeWriter ""
            (mkParser []
               [("example.com/project/apis/example/v2",
                 mkGroupVersion "example.com" "v2");
                ("example.com/project/apis/example/v1",
                 mkGroupVersion "example.com" "v1")])) metav1.
Proof.
  split; [apply perm_swap|].
  apply (X10_install_files_ignore_range_order
           (world (inl "") (Some metav1) [] []) "" [] _ _ metav1
           "example.com" "example" (perm_swap _ _ [])).
Defined.

(** X12 on a group with two kinds: its file is rendered twice. *)
Lemma X12_witness :
  FindMetav1 (world (inl "") (Some metav1) alpha_beta example_gvs)
  = Some metav1
  /\ snd (Generate (world (inl "") (Some metav1) alpha_beta example_gvs) gen_crd)
     = Returns None
  /\ written
       (fst (Generate (world (inl "") (Some metav1) alpha_beta example_gvs)
               gen_crd))
     = ["example/zz.generated.crd.go"; "example/zz.generated.crd.go"].
Proof.
  split; [reflexivity|]. split; [reflexivity|].
  rewrite (X12_files_of_a_successful_run
             (world (inl "") (Some metav1) alpha_beta example_gvs)
             gen_crd metav1 eq_refl);
    [reflexivity | discriminate | reflexivity].
Defined.

(** X13 on the group of [alpha] and [beta]. *)
Lemma X13_witness :
  exists f,
    GenerateGroup_file (world (inl "") (Some metav1) [] [])
      (mkCodeWriter "" (mkParser alpha_beta example_gvs))
      "example.com" "example" = Returns f
    /\ Forall (fun e => reaches_nil (ValueOf (snd e)) = false)
         (List.filter (fun e => String.eqb (Group (fst e)) "example.com")
            alpha_beta).
Proof.
  eexists. split; [reflexivity|].
  destruct (X13_group_file (world (inl "") (Some metav1) [] [])
              (mkCodeWriter "" (mkParser alpha_beta example_gvs))
              "example.com" "example" _ eq_refl) as [_ H].
  exact H.
Defined.

(** X3 on [[]string{"a"}]. *)
Lemma X3_witness :
  exists s ts : Statement,
    generateValue marshal_fails names true = Returns (Some s)
    /\ generateValue marshal_fails names false = Returns (Some (ts ++ s)).
Proof.
  destruct (X3_omitType_drops_a_prefix marshal_fails names _ eq_refl)
    as [ts H].
  eexists _, ts. split; [reflexivity | exact H].
Defined.

(** X4 on [map[string]string{"a": "b"}]. *)
Lemma X4_witness :
  exists s : Statement,
    generateValue marshal_fails
      (VMap string_type string_type [(string_Value "a", string_Value "b")])
      false = Returns (Some s)
    /\ has_entry s [Tok (Lit (LitString "a"))] [Tok (Lit (LitString "b"))].
Proof.
  eexists. split; [reflexivity|].
  apply (X4_map_entries marshal_fails string_type string_type
           [(string_Value "a", string_Value "b")] false _ eq_refl).
  exists (string_Value "a", string_Value "b").
  split; [by left|]. split; reflexivity.
Defined.

(** X5 on [type Level int32] holding 5. *)
Lemma X5_witness :
  well_formed_scalar level5 = true
  /\ VInt KInt32 "example.com/api" "Level" 5 = level5.
Proof.
  split; [reflexivity|].
  apply (X5_scalars_compile_injectively marshal_fails
           (VInt KInt32 "example.com/api" "Level" 5) level5 true false);
    reflexivity.
Defined.

(* ===================================================================== *)
(** ** More on the generator toggle *)
(* ===================================================================== *)

Section ToggleCoverage.
Import codegen.

(** The set [EnabledGenerators] filters the valid names by. *)
Lemma EnabledGenerators_effective
  (defaultEnabledGenerators defaultDisabledGenerators generatorsOptions
     : list string) :
  EnabledGenerators defaultEnabledGenerators defaultDisabledGenerators
    generatorsOptions
  = List.filter
      (fun g =>
         bool_decide
           (g ∈ match bare_names generatorsOptions with
                | [] =>
                    (list_to_set defaultEnabledGenerators
                       ∖ (list_to_set defaultDisabledGenerators
                            ∪ list_to_set (explicit_minus generatorsOptions)))
                      ∪ list_to_set (explicit_plus generatorsOptions)
                | bare => (list_to_set bare : gset string)
                end))
      sortedValidGenerators.
Proof.
  unfold EnabledGenerators.
  destruct (fold_left_addOption generatorsOptions
              (mkToggles
                 (fold_left (fun d g => d ∪ {[g]}) defaultDisabledGenerators ∅)
                 ∅ ∅)) as (Hd & He & Ht).
  rewrite Hd, He, Ht. cbn [disabled enabled target].
  rewrite fold_left_add.
  apply filter_ext. intros g. apply bool_decide_ext.
  rewrite (left_id_L ∅ (∪)).
  case_bool_decide as Hsize.
  - apply list_to_set_empty_iff in Hsize. rewrite Hsize.
    rewrite !elem_of_union, !elem_of_difference, fold_left_all.
    set_solver.
  - destruct (bare_names generatorsOptions) eqn:Hb; [|done].
    exfalso. apply Hsize. by apply list_to_set_empty_iff.
Qed.

Lemma valid_of_spec (generators : list string) (x : string) :
  x ∈ valid_of generators <-> x ∈ generators /\ x ∈ validGenerators.
Proof.
  unfold valid_of. generalize validGenerators. intros V.
  assert (H : forall s0 : gset string,
             x ∈ fold_left
                   (fun s g =>
                      if bool_decide (g ∈ V)
                      then s ∪ {[g]} else s) generators s0
             <-> x ∈ s0 \/ (x ∈ generators /\ x ∈ V)).
  { induction generators as [|g l IH]; intros s0; cbn [fold_left].
    - set_solver.
    - rewrite IH. case_bool_decide; set_solver. }
  rewrite H. set_solver.
Qed.

Lemma List_filter_ext_in {A : Type} (p q : A -> bool) (l : list A) :
  (forall x, In x l -> p x = q x) -> List.filter p l = List.filter q l.
Proof.
  induction l as [|x l IH]; intros H; simpl; [reflexivity|].
  rewrite (H x) by (by left). rewrite IH; [reflexivity|].
  intros y Hy. apply H. by right.
Qed.

(** X14: the filtering of [NewCodeGenerator] changes nothing.  It keeps
    the valid names of the two default lists, as sets, and hands them to
    [doGenerate] in an order that Go leaves unspecified; whatever that
    order, and whatever the options, [EnabledGenerators] returns for them
    what it returns for the lists as given: the invalid names, the
    repetitions and the order of the default lists play no part. *)
Theorem X14_NewCodeGenerator_is_transparent
  (enabledGenerators disabledGenerators generators : list string)
  (c_enabledGenerators c_disabledGenerators : list string) :
  ToStrings (valid_of enabledGenerators) c_enabledGenerators ->
  ToStrings (valid_of disabledGenerators) c_disabledGenerators ->
  EnabledGenerators c_enabledGenerators c_disabledGenerators generators
  = EnabledGenerators enabledGenerators disabledGenerators generators.
Proof.
  intros [_ He] [_ Hd]. rewrite !EnabledGenerators_effective.
  apply List_filter_ext_in. intros g Hg. apply bool_decide_ext.
  assert (Hv : g ∈ validGenerators).
  { unfold validGenerators. apply elem_of_list_to_set.
    by apply list_elem_of_In. }
  specialize (He g). specialize (Hd g).
  rewrite valid_of_spec in He, Hd.
  destruct (bare_names generators); [|reflexivity].
  rewrite !elem_of_union, !elem_of_difference, !elem_of_union,
    !elem_of_list_to_set.
  intuition.
Qed.

Lemma mentions_Replace_char (old new : ascii) (s : string) :
  old <> new -> mentions old (Replace_char old new s) = false.
Proof.
  intros Hne. induction s as [|c s IH]; [reflexivity|].
  cbn [Replace_char mentions]. rewrite IH, orb_false_r.
  destruct (Ascii.eqb c old) eqn:Hc.
  - by apply Ascii.eqb_neq.
  - rewrite Ascii.eqb_sym. exact Hc.
Qed.

Lemma mentions_Replace_char_other (c old new : ascii) (s : string) :
  c <> new -> mentions c s = false ->
  mentions c (Replace_char old new s) = false.
Proof.
  intros Hne. induction s as [|x s IH]; [reflexivity|].
  cbn [Replace_char mentions]. intros H.
  apply orb_false_elim in H as [Hx Hs]. rewrite (IH Hs), orb_false_r.
  destruct (Ascii.eqb x old); [by apply Ascii.eqb_neq | exact Hx].
Qed.

Lemma length_Replace_char (old new : ascii) (s : string) :
  String.length (Replace_char old new s) = String.length s.
Proof.
  induction s as [|c s IH]; [reflexivity|].
  cbn [Replace_char String.length]. by rewrite IH.
Qed.

(** X15: the protobuf package name [protoSafeOutermostPackage] makes of
    a Go package path starts with a dot, contains neither a slash nor a
    hyphen, and is one character longer than the path. *)
Theorem X15_protoSafeOutermostPackage (name : string) :
  (exists pkg, protoSafeOutermostPackage name = String.String "." pkg)
  /\ mentions "/" (protoSafeOutermostPackage name) = false
  /\ mentions "-" (protoSafeOutermostPackage name) = false
  /\ String.length (protoSafeOutermostPackage name) = S (String.length name).
Proof.
  unfold protoSafeOutermostPackage. cbn [String.append].
  split; [eauto|]. split; [|split].
  - cbn [mentions Ascii.eqb Bool.eqb orb].
    apply mentions_Replace_char_other; [discriminate|].
    apply mentions_Replace_char. discriminate.
  - cbn [mentions Ascii.eqb Bool.eqb orb].
    apply mentions_Replace_char. discriminate.
  - transitivity
      (S (String.length (Replace_char "-" "_" (Replace_char "/" "." name))));
      [reflexivity|].
    by rewrite !length_Replace_char.
Qed.

End ToggleCoverage.

(** X14 on a default list with a name that is not a generator. *)
Lemma X14_witness :
  codegen.ToStrings (codegen.valid_of ["deepcopy"; "bogus"]) ["deepcopy"]
  /\ codegen.ToStrings (codegen.valid_of []) []
  /\ codegen.EnabledGenerators ["deepcopy"] [] ["-crd"]
     = codegen.EnabledGenerators ["deepcopy"; "bogus"] [] ["-crd"].
Proof.
  assert (H1 : codegen.ToStrings (codegen.valid_of ["deepcopy"; "bogus"])
                 ["deepcopy"]).
  { split; [repeat constructor; set_solver|].
    intros x. rewrite valid_of_spec.
    unfold codegen.validGenerators, codegen.sortedValidGenerators.
    set_solver. }
  assert (H2 : codegen.ToStrings (codegen.valid_of []) []).
  { split; [constructor|]. intros x. rewrite valid_of_spec.
    set_solver. }
  split; [exact H1|]. split; [exact H2|].
  exact (X14_NewCodeGenerator_is_transparent ["deepcopy"; "bogus"] [] ["-crd"]
           ["deepcopy"] [] H1 H2).
Defined.
